(** * Electricity_consumption: the lag-feature forecasting pipeline of main.py

    A shallow embedding of the self-contained logic of [src/main.py]:
    the metric calculator ([calculate_metrics]), the lag-feature builder
    (the nested [get_lag] followed by [dropna]), the chronological
    train/test split, the two tabular forecast pipelines and the future
    extrapolator ([forecast_future]) with its caller.

    Conventions.
    - A Python call either returns a value or raises: [py_result].
    - A pandas float column is a list of [option V]: [None] is NaN.
      A series handed to a strategy holds defined values; NaN enters the
      lag table through [shift] only, and [dropna] removes it again, so
      the table after [dropna] has cells of type [V].
    - The float arithmetic of the split index,
      [int(len(data) * (1 - test_size))], is a parameter ([PyFloat]) with
      two instances: [double], the IEEE binary64 arithmetic of the
      program, and the exact rationals [Q], the same expression without
      rounding. The caller's [int(len(data) * 0.2)] is written with the
      exact rational; the metric values are reals extended with the IEEE
      specials ([pyfloat]).
    - Fitting routines (XGBoost, gradient boosting, SARIMA) are external:
      they are parameters of the pipelines. *)

From Stdlib Require Import String Ascii DecimalString DecimalNat.
From Stdlib Require Import Arith ZArith Lia Bool.
From Stdlib Require Import QArith Qround SpecFloat.
From Stdlib Require Import Reals Lra.
From Stdlib Require Import List.
Import ListNotations.

Local Close Scope R_scope.
Local Close Scope Q_scope.
Local Open Scope nat_scope.

Set Implicit Arguments.

(** ** Python results *)

Inductive exn : Type :=
| PyError (cls : string).

Inductive py_result (A : Type) : Type :=
| Ok (a : A)
| Raise (e : exn).

Arguments Ok {A} a.
Arguments Raise {A} e.

Definition bind {A B : Type} (m : py_result A) (k : A -> py_result B)
  : py_result B :=
  match m with
  | Ok a => k a
  | Raise e => Raise e
  end.

Declare Scope py_scope.
Delimit Scope py_scope with py.
Notation "x <- m ;; k" := (bind m (fun x => k))
  (at level 61, m at next level, right associativity) : py_scope.
Notation "' pat <- m ;; k" := (bind m (fun x => match x with pat => k end))
  (at level 61, pat pattern, m at next level, right associativity) : py_scope.

Definition KeyError : exn := PyError "KeyError".
Definition IndexError : exn := PyError "IndexError".
Definition ValueError : exn := PyError "ValueError".

Definition raises {A : Type} (r : py_result A) : Prop :=
  exists e, r = Raise e.

(** ** Python integers, slices and f-strings *)

(** [int(x)] truncates toward zero. *)
Definition py_int (q : Q) : Z := Z.quot (Qnum q) (Zpos (Qden q)).

(** The bound of a slice: a negative bound counts from the end, and the
    result is clipped to the sequence. *)
Definition slice_bound (len : nat) (i : Z) : nat :=
  if (i <? 0)%Z
  then Z.to_nat (Z.max 0 (Z.of_nat len + i))
  else Nat.min len (Z.to_nat i).

(** [l[:i]] and [l[i:]]. *)
Definition slice_to {A : Type} (i : Z) (l : list A) : list A :=
  firstn (slice_bound (length l) i) l.

Definition slice_from {A : Type} (i : Z) (l : list A) : list A :=
  skipn (slice_bound (length l) i) l.

(** [str(i)] for a non-negative integer. *)
Definition str_of_nat (i : nat) : string :=
  NilEmpty.string_of_uint (Nat.to_uint i).

(** [f"{col}_lag{i}"] *)
Definition lag_name (col : string) (i : nat) : string :=
  (col ++ "_lag" ++ str_of_nat i)%string.

(** ** Data frames *)

Section Frame.

Variable T : Type.   (* index labels: timestamps *)

(** A frame with cells of type [C]: the index and the named columns,
    in insertion order. *)
Record frame (C : Type) : Type := mkFrame {
  index : list T;
  columns : list (string * list C)
}.

(** A series: its index and its values. *)
Record series (C : Type) : Type := mkSeries {
  s_index : list T;
  s_values : list C
}.

Variable V : Type.   (* defined numeric values *)

Definition height {C : Type} (fr : frame C) : nat := length (index fr).

Fixpoint assoc_get {C : Type} (name : string) (cols : list (string * list C))
  : option (list C) :=
  match cols with
  | [] => None
  | (n, c) :: rest => if String.eqb n name then Some c else assoc_get name rest
  end.

(** Assigning a column replaces it in place when the name exists and
    appends it otherwise. *)
Fixpoint assoc_set {C : Type} (name : string) (c : list C)
  (cols : list (string * list C)) : list (string * list C) :=
  match cols with
  | [] => [(name, c)]
  | (n, c') :: rest =>
      if String.eqb n name then (name, c) :: rest
      else (n, c') :: assoc_set name c rest
  end.

(** [data[name]] *)
Definition getitem {C : Type} (fr : frame C) (name : string)
  : py_result (list C) :=
  match assoc_get name (columns fr) with
  | Some c => Ok c
  | None => Raise KeyError
  end.

(** [data[name] = c] *)
Definition setitem {C : Type} (fr : frame C) (name : string) (c : list C)
  : frame C :=
  mkFrame (index fr) (assoc_set name c (columns fr)).

(** [data.to_frame(name=...)] of a series of (timestamp, value) pairs. *)
Definition to_frame (data : list (T * V)) (name : string)
  : frame (option V) :=
  mkFrame (map fst data) [(name, map (fun p => Some (snd p)) data)].

(** [column.shift(i)]: values move down by [i] rows, NaN fills the head. *)
Definition shift (i : nat) (c : list (option V)) : list (option V) :=
  firstn (length c) (repeat None i ++ c).

(** The cell of a column at row [r]; a row outside the column is NaN. *)
Definition cell (c : list (option V)) (r : nat) : option V :=
  nth r c None.

Definition notna (x : option V) : bool :=
  match x with Some _ => true | None => false end.

Definition row_complete (cols : list (string * list (option V))) (r : nat)
  : bool :=
  forallb (fun nc => notna (cell (snd nc) r)) cols.

(** The rows picked at the positions [keep]. *)
Definition take_rows {A : Type} (keep : list nat) (l : list A) : list A :=
  flat_map (fun r => match nth_error l r with
                     | Some x => [x]
                     | None => []
                     end) keep.

Definition take_defined (keep : list nat) (c : list (option V)) : list V :=
  flat_map (fun r => match cell c r with
                     | Some v => [v]
                     | None => []
                     end) keep.

(** [data.dropna()]: every row with at least one NaN is removed. *)
Definition dropna (fr : frame (option V)) : frame V :=
  let keep := filter (row_complete (columns fr)) (seq 0 (height fr)) in
  mkFrame (take_rows keep (index fr))
          (map (fun nc => (fst nc, take_defined keep (snd nc))) (columns fr)).

(** [data.iloc[:i]] and [data.iloc[i:]] *)
Definition iloc_to {C : Type} (i : Z) (fr : frame C) : frame C :=
  mkFrame (slice_to i (index fr))
          (map (fun nc => (fst nc, slice_to i (snd nc))) (columns fr)).

Definition iloc_from {C : Type} (i : Z) (fr : frame C) : frame C :=
  mkFrame (slice_from i (index fr))
          (map (fun nc => (fst nc, slice_from i (snd nc))) (columns fr)).

(** [data.drop(name, axis=1)] *)
Definition drop_column {C : Type} (fr : frame C) (name : string)
  : py_result (frame C) :=
  match assoc_get name (columns fr) with
  | Some _ =>
      Ok (mkFrame (index fr)
            (filter (fun nc => negb (String.eqb (fst nc) name)) (columns fr)))
  | None => Raise KeyError
  end.

(** [data[name].iloc[r]] *)
Definition frame_cell {C : Type} (fr : frame C) (name : string) (r : nat)
  : option C :=
  match assoc_get name (columns fr) with
  | Some c => nth_error c r
  | None => None
  end.

(** [data[name]] as a series, keeping the index. *)
Definition getseries {C : Type} (fr : frame C) (name : string)
  : py_result (series C) :=
  (c <- getitem fr name ;; Ok (mkSeries (index fr) c))%py.

(** The row at position [r] across the columns, in column order. *)
Definition row_values {C : Type} (fr : frame C) (r : nat) : list C :=
  flat_map (fun nc => match nth_error (snd nc) r with
                      | Some x => [x]
                      | None => []
                      end) (columns fr).

(** The frame as a feature matrix: one list of cells per row. *)
Definition matrix {C : Type} (fr : frame C) : list (list C) :=
  map (row_values fr) (seq 0 (height fr)).

(** [data.iloc[-1].values] *)
Definition iloc_last_values {C : Type} (fr : frame C) : py_result (list C) :=
  match height fr with
  | O => Raise IndexError
  | S r => Ok (row_values fr r)
  end.

End Frame.

Arguments mkFrame {T C} index columns.
Arguments mkSeries {T C} s_index s_values.

Arguments height {T C} fr.
Arguments getitem {T C} fr name.
Arguments setitem {T C} fr name c.
Arguments to_frame {T V} data name.
Arguments dropna {T V} fr.
Arguments iloc_to {T C} i fr.
Arguments iloc_from {T C} i fr.
Arguments drop_column {T C} fr name.
Arguments getseries {T C} fr name.
Arguments frame_cell {T C} fr name r.
Arguments row_values {T C} fr r.
Arguments matrix {T C} fr.
Arguments iloc_last_values {T C} fr.

(** ** Metrics *)

(** A Python float: a real, an infinity or NaN. *)
Inductive pyfloat : Type :=
| Fin (r : R)
| PInf
| NInf
| NaN.

(** [a <= b] on floats: every comparison with NaN is false. *)
Definition fle (a b : pyfloat) : Prop :=
  match a, b with
  | Fin x, Fin y => (x <= y)%R
  | Fin _, PInf => True
  | NInf, Fin _ => True
  | NInf, NInf => True
  | NInf, PInf => True
  | PInf, PInf => True
  | _, _ => False
  end.

Definition is_finite (a : pyfloat) : Prop :=
  match a with Fin _ => True | _ => False end.

(** Division of two finite floats, as numpy does it: a zero divisor
    gives NaN for [0/0] and a signed infinity otherwise. *)
Definition fdiv (x y : R) : pyfloat :=
  if Req_dec_T y 0 then
    if Req_dec_T x 0 then NaN
    else if Rlt_dec 0 x then PInf else NInf
  else Fin (x / y).

Definition fabs (a : pyfloat) : pyfloat :=
  match a with
  | Fin r => Fin (Rabs r)
  | PInf => PInf
  | NInf => PInf
  | NaN => NaN
  end.

Definition fadd (a b : pyfloat) : pyfloat :=
  match a, b with
  | NaN, _ => NaN
  | _, NaN => NaN
  | Fin x, Fin y => Fin (x + y)
  | PInf, NInf => NaN
  | NInf, PInf => NaN
  | PInf, _ => PInf
  | _, PInf => PInf
  | NInf, _ => NInf
  | _, NInf => NInf
  end.

(** Multiplication by a finite, positive constant. *)
Definition fscale (a : pyfloat) (k : R) : pyfloat :=
  match a with
  | Fin r => Fin (r * k)
  | other => other
  end.

Definition isnan (a : pyfloat) : bool :=
  match a with NaN => true | _ => false end.

(** [Series.mean()] of pandas: NaN entries are skipped; the mean of
    nothing is NaN. *)
Definition pd_mean (l : list pyfloat) : pyfloat :=
  let xs := filter (fun a => negb (isnan a)) l in
  match xs with
  | [] => NaN
  | _ => fscale (fold_right fadd (Fin 0) xs) (/ INR (length xs))
  end.

Definition rsum (l : list R) : R := fold_right Rplus 0%R l.

Definition rmean (l : list R) : R := (rsum l / INR (length l))%R.

(** [y_true - y_pred], element by element. *)
Definition residuals (y_true y_pred : list R) : list R :=
  map (fun yp => (fst yp - snd yp)%R) (combine y_true y_pred).

(** The input validation of sklearn's metrics: the two arrays have the
    same, non-zero number of samples. *)
Definition check_targets (y_true y_pred : list R) : py_result unit :=
  if length y_true =? length y_pred then
    match length y_true with
    | O => Raise ValueError
    | S _ => Ok tt
    end
  else Raise ValueError.

Definition sq (x : R) : R := (x * x)%R.

(** [sklearn.metrics.mean_squared_error] *)
Definition mean_squared_error (y_true y_pred : list R) : py_result R :=
  (_ <- check_targets y_true y_pred ;;
   Ok (rmean (map sq (residuals y_true y_pred))))%py.

(** [sklearn.metrics.mean_absolute_error] *)
Definition mean_absolute_error (y_true y_pred : list R) : py_result R :=
  (_ <- check_targets y_true y_pred ;;
   Ok (rmean (map Rabs (residuals y_true y_pred))))%py.

(** The last step of sklearn's [r2_score] and [explained_variance_score]
    with [force_finite=True]: a perfect fit scores 1, and an imperfect
    fit of a constant target scores 0. *)
Definition assemble_score (numerator denominator : R) : R :=
  if Req_dec_T numerator 0 then 1%R
  else if Req_dec_T denominator 0 then 0%R
  else (1 - numerator / denominator)%R.

(** [sklearn.metrics.r2_score]: not defined for fewer than two samples,
    where it warns and returns NaN. *)
Definition r2_score (y_true y_pred : list R) : py_result pyfloat :=
  (_ <- check_targets y_true y_pred ;;
   if length y_pred <? 2 then Ok NaN
   else
     let numerator := rsum (map sq (residuals y_true y_pred)) in
     let avg := rmean y_true in
     let denominator := rsum (map (fun y => sq (y - avg)) y_true) in
     Ok (Fin (assemble_score numerator denominator)))%py.

(** [sklearn.metrics.explained_variance_score] *)
Definition explained_variance_score (y_true y_pred : list R)
  : py_result pyfloat :=
  (_ <- check_targets y_true y_pred ;;
   let diff := residuals y_true y_pred in
   let y_diff_avg := rmean diff in
   let numerator := rmean (map (fun d => sq (d - y_diff_avg)) diff) in
   let y_true_avg := rmean y_true in
   let denominator := rmean (map (fun y => sq (y - y_true_avg)) y_true) in
   Ok (Fin (assemble_score numerator denominator)))%py.

(** [abs((test_data - predictions) / test_data)], element by element. *)
Definition abs_pct_errors (test_data predictions : list R) : list pyfloat :=
  map (fun tp => fabs (fdiv (fst tp - snd tp) (fst tp)))
      (combine test_data predictions).

Record Metrics : Type := mkMetrics {
  RMSE : pyfloat;
  MAE : pyfloat;
  MAPE : pyfloat;
  R2 : pyfloat;
  ExplainedVariance : pyfloat
}.

(** [calculate_metrics(test_data, predictions)] *)
Definition calculate_metrics (test_data predictions : list R)
  : py_result Metrics :=
  (mse <- mean_squared_error test_data predictions ;;
   let rmse := Fin (sqrt mse) in
   mae <- mean_absolute_error test_data predictions ;;
   let mape := fscale (pd_mean (abs_pct_errors test_data predictions)) 100 in
   r2 <- r2_score test_data predictions ;;
   explained_var <- explained_variance_score test_data predictions ;;
   Ok (mkMetrics rmse (Fin mae) mape r2 explained_var))%py.

(** The mean absolute percentage error in the words of the
    specification: mean(|truth - predicted| / truth) * 100. *)
Definition spec_mape (truth predicted : list R) : R :=
  (rmean (map (fun tp => Rabs (fst tp - snd tp) / fst tp)
              (combine truth predicted)) * 100)%R.

(** ** The chronological split *)

(** The floats of the split: an int operand converted to float,
    subtraction, multiplication, division, and [int(x)], which raises on
    an infinity or a NaN. *)
Class PyFloat (F : Type) : Type := {
  float_of_int : Z -> F;
  float_sub : F -> F -> F;
  float_mul : F -> F -> F;
  float_div : F -> F -> F;
  int_of_float : F -> py_result Z
}.

(** IEEE binary64, the float of the program: 53 bits of precision,
    round to nearest even. The ints converted here (a length, the
    literal 1, a percentage) are far below the overflow threshold. *)
Definition double : Type := spec_float.

Definition double_of_int (z : Z) : double :=
  binary_normalize 53 1024 z 0 false.

(** [int(x)]: truncation toward zero. *)
Definition int_of_double (x : double) : py_result Z :=
  match x with
  | S754_zero _ => Ok 0%Z
  | S754_finite s m e =>
      let magnitude :=
        match e with
        | Z0 => Zpos m
        | Zpos p => (Zpos m * 2 ^ Zpos p)%Z
        | Zneg p => (Zpos m / 2 ^ Zpos p)%Z
        end in
      Ok (if s then (- magnitude)%Z else magnitude)
  | S754_infinity _ => Raise (PyError "OverflowError")
  | S754_nan => Raise ValueError
  end.

#[export] Instance double_float : PyFloat double := {
  float_of_int := double_of_int;
  float_sub := SFsub 53 1024;
  float_mul := SFmul 53 1024;
  float_div := SFdiv 53 1024;
  int_of_float := int_of_double
}.

(** The same expressions without rounding. *)
#[export] Instance exact_float : PyFloat Q := {
  float_of_int := inject_Z;
  float_sub := Qminus;
  float_mul := Qmult;
  float_div := Qdiv;
  int_of_float := fun q => Ok (py_int q)
}.

(** The rational a finite double stands for. *)
Definition double_value (x : double) : Q :=
  match x with
  | S754_finite s m e =>
      let z := if s then Zneg m else Zpos m in
      match e with
      | Z0 => inject_Z z
      | Zpos p => inject_Z (z * 2 ^ Zpos p)
      | Zneg p => z # (2 ^ p)
      end
  | _ => 0
  end.

Definition double_finite (x : double) : bool :=
  match x with
  | S754_zero _ => true
  | S754_finite _ _ _ => true
  | _ => false
  end.

(** The sign bit is clear. *)
Definition double_nonneg (x : double) : bool :=
  match x with
  | S754_zero s => negb s
  | S754_finite s _ _ => negb s
  | S754_infinity s => negb s
  | S754_nan => false
  end.

(** [len(data) * (1 - test_size)] *)
Definition scaled_length {F : Type} `{PyFloat F} (n : nat) (test_size : F)
  : F :=
  float_mul (float_of_int (Z.of_nat n))
            (float_sub (float_of_int 1) test_size).

(** [int(len(data) * (1 - test_size))] *)
Definition train_size_of {F : Type} `{PyFloat F} (n : nat) (test_size : F)
  : py_result Z :=
  int_of_float (scaled_length n test_size).

(** The split index without rounding. *)
Definition exact_train_size (n : nat) (test_size : Q) : Z :=
  py_int (inject_Z (Z.of_nat n) * (1 - test_size))%Q.

(** Lines 22-24 of [sarima_forecast]: [data[:train_size]] and
    [data[train_size:]]. *)
Definition sarima_split {A F : Type} `{PyFloat F} (data : list A)
  (test_size : F) : py_result (list A * list A) :=
  (train_size <- train_size_of (length data) test_size ;;
   Ok (slice_to train_size data, slice_from train_size data))%py.

(** What a forecast returns: the metrics, the predictions and the
    held-out truth. *)
Definition forecast_result (T : Type) : Type :=
  (Metrics * list R * series T R)%type.

(** [data.index[0]] and [data.index[-1]] *)
Definition index_first {T V : Type} (data : list (T * V)) : py_result T :=
  match data with
  | [] => Raise IndexError
  | p :: _ => Ok (fst p)
  end.

Definition index_last {T V : Type} (data : list (T * V)) : py_result T :=
  match rev data with
  | [] => Raise IndexError
  | p :: _ => Ok (fst p)
  end.

(** ** The SARIMA forecast *)

Section Sarima.

Variable T : Type.

(** Lines 26-29: the order search and the ARIMA fit on the training
    data; line 33: the prediction of the fitted model from the first to
    the last test timestamp. The fitted model is of type [M]. *)
Variable M : Type.
Variable arima_fit : list (T * R) -> nat -> py_result M.
Variable arima_predict : M -> T -> T -> py_result (list R).

Definition sarima_forecast {F : Type} `{PyFloat F} (data : list (T * R))
  (seasonal_period : nat) (test_size : F) : py_result (forecast_result T) :=
  ('(train_data, test_data) <- sarima_split data test_size ;;
   arima_result <- arima_fit train_data seasonal_period ;;
   start_date <- index_first test_data ;;
   end_date <- index_last test_data ;;
   predictions <- arima_predict arima_result start_date end_date ;;
   metrics <- calculate_metrics (map snd test_data) predictions ;;
   Ok (metrics, predictions,
       mkSeries (map fst test_data) (map snd test_data)))%py.

End Sarima.

(** ** The tabular forecast pipelines *)

(** A fitted regressor predicts one value from one row of features;
    predicting on a matrix predicts row by row. *)
Definition predict {V : Type} (model : list V -> V) (X : list (list V))
  : list V :=
  map model X.

Module XGBoost.
Section Pipeline.

Variable T : Type.

(** The loop of the nested [get_lag]. *)
Fixpoint get_lag_loop {V : Type} (range : list nat)
  (data : frame T (option V)) (col : string)
  : py_result (frame T (option V)) :=
  match range with
  | [] => Ok data
  | i :: rest =>
      (c <- getitem data col ;;
       get_lag_loop rest (setitem data (lag_name col i) (shift i c)) col)%py
  end.

(** [get_lag(data, col, lagtime)]: the range is [range(1, lagtime + 1)]. *)
Definition get_lag {V : Type} (data : frame T (option V)) (col : string)
  (lagtime : nat) : py_result (frame T (option V)) :=
  get_lag_loop (seq 1 lagtime) data col.

(** Lines 45-47: the lag table of a series. *)
Definition lag_table {V : Type} (data : list (T * V)) (lag_features : nat)
  : py_result (frame T V) :=
  (fr <- get_lag (to_frame data "target") "target" lag_features ;;
   Ok (dropna fr))%py.

(** Lines 45-54: the lag table, its split and the feature matrices and
    target vectors. *)
Definition prepare {F : Type} `{PyFloat F} (data : list (T * R))
  (lag_features : nat) (test_size : F)
  : py_result (frame T R * series T R * frame T R * series T R) :=
  (data <- lag_table data lag_features ;;
   split_date <- train_size_of (height data) test_size ;;
   let train_data := iloc_to split_date data in
   let test_data := iloc_from split_date data in
   X_train <- drop_column train_data "target" ;;
   y_train <- getseries train_data "target" ;;
   X_test <- drop_column test_data "target" ;;
   y_test <- getseries test_data "target" ;;
   Ok (X_train, y_train, X_test, y_test))%py.

(** [XGBRegressor(n_estimators=1000, early_stopping_rounds=50).fit]
    with its evaluation sets. *)
Variable fit :
  list (list R) -> list R -> list (list (list R) * list R) ->
  py_result (list R -> R).

Definition xgboost_forecast {F : Type} `{PyFloat F} (data : list (T * R))
  (lag_features : nat) (test_size : F) : py_result (forecast_result T) :=
  ('(X_train, y_train, X_test, y_test) <-
     prepare data lag_features test_size ;;
   reg <- fit (matrix X_train) (s_values y_train)
            [(matrix X_train, s_values y_train);
             (matrix X_test, s_values y_test)] ;;
   let predictions := predict reg (matrix X_test) in
   metrics <- calculate_metrics (s_values y_test) predictions ;;
   Ok (metrics, predictions, y_test))%py.

End Pipeline.
End XGBoost.

Module GradientBoosting.
Section Pipeline.

Variable T : Type.

(** The loop of the nested [get_lag]. *)
Fixpoint get_lag_loop {V : Type} (range : list nat)
  (data : frame T (option V)) (col : string)
  : py_result (frame T (option V)) :=
  match range with
  | [] => Ok data
  | i :: rest =>
      (c <- getitem data col ;;
       get_lag_loop rest (setitem data (lag_name col i) (shift i c)) col)%py
  end.

Definition get_lag {V : Type} (data : frame T (option V)) (col : string)
  (lagtime : nat) : py_result (frame T (option V)) :=
  get_lag_loop (seq 1 lagtime) data col.

(** Lines 71-73: the lag table of a series. *)
Definition lag_table {V : Type} (data : list (T * V)) (lag_features : nat)
  : py_result (frame T V) :=
  (fr <- get_lag (to_frame data "target") "target" lag_features ;;
   Ok (dropna fr))%py.

(** Lines 71-80. *)
Definition prepare {F : Type} `{PyFloat F} (data : list (T * R))
  (lag_features : nat) (test_size : F)
  : py_result (frame T R * series T R * frame T R * series T R) :=
  (data <- lag_table data lag_features ;;
   split_date <- train_size_of (height data) test_size ;;
   let train_data := iloc_to split_date data in
   let test_data := iloc_from split_date data in
   X_train <- drop_column train_data "target" ;;
   y_train <- getseries train_data "target" ;;
   X_test <- drop_column test_data "target" ;;
   y_test <- getseries test_data "target" ;;
   Ok (X_train, y_train, X_test, y_test))%py.

(** [GradientBoostingRegressor(n_estimators=500, ...).fit] *)
Variable fit : list (list R) -> list R -> py_result (list R -> R).

Definition gradient_boosting_forecast {F : Type} `{PyFloat F}
  (data : list (T * R)) (lag_features : nat) (test_size : F)
  : py_result (forecast_result T) :=
  ('(X_train, y_train, X_test, y_test) <-
     prepare data lag_features test_size ;;
   gbr <- fit (matrix X_train) (s_values y_train) ;;
   let predictions := predict gbr (matrix X_test) in
   metrics <- calculate_metrics (s_values y_test) predictions ;;
   Ok (metrics, predictions, y_test))%py.

End Pipeline.
End GradientBoosting.

(** ** The future extrapolator *)

(** Timestamps of the monthly series: the ordinal of the month whose end
    they mark. *)
Definition timestamp : Type := Z.

(** [pd.date_range(start=..., periods=..., freq='M')] from a month end. *)
Definition date_range (start : timestamp) (periods : nat) : list timestamp :=
  map (fun i => (start + Z.of_nat i)%Z) (seq 0 periods).

(** [pd.Series(values, index=index)] *)
Definition pd_Series {V : Type} (values : list V) (index : list timestamp)
  : py_result (series timestamp V) :=
  if length values =? length index then Ok (mkSeries index values)
  else Raise ValueError.


Section Future.

Variable V : Type.

(** Lines 179-187, the direct multi-step forecast of the fitted ARIMA. *)
Variable sarima_future :
  list (timestamp * V) -> option nat -> nat ->
  py_result (series timestamp V).

(** [XGBRegressor(n_estimators=1000).fit] and
    [GradientBoostingRegressor(n_estimators=500, ...).fit] *)
Variable xgb_fit : list (list V) -> list V -> py_result (list V -> V).
Variable gbr_fit : list (list V) -> list V -> py_result (list V -> V).

(** Lines 192-193. *)
Fixpoint future_lag_loop (range : list nat)
  (future_data : frame timestamp (option V))
  : py_result (frame timestamp (option V)) :=
  match range with
  | [] => Ok future_data
  | i :: rest =>
      (c <- getitem future_data "target" ;;
       future_lag_loop rest
         (setitem future_data (lag_name "target" i) (shift i c)))%py
  end.

(** Lines 207-212: the loop over [range(future_steps)], threading
    [input_data] and [predictions]. *)
Fixpoint rollout (model : list V -> V) (steps : nat)
  (input_data predictions : list V) : list V :=
  match steps with
  | O => predictions
  | S steps' =>
      let next_pred := model input_data in
      rollout model steps'
        (slice_from 1 input_data ++ [next_pred])
        (predictions ++ [next_pred])
  end.

Definition forecast_future (data : list (timestamp * V))
  (model_choice : string) (future_steps : nat) (seasonal_period : option nat)
  : py_result (option (series timestamp V)) :=
  if String.eqb model_choice "SARIMA" then
    (s <- sarima_future data seasonal_period future_steps ;;
     Ok (Some s))%py
  else if existsb (String.eqb model_choice) ["XGBoost"; "Gradient Boosting"]%string
  then
    (let lag_features := 8 in
     future_data <- future_lag_loop (seq 1 lag_features)
                      (to_frame data "target") ;;
     let future_data := dropna future_data in
     X_train <- drop_column future_data "target" ;;
     y_train <- getitem future_data "target" ;;
     fit <- (if String.eqb model_choice "XGBoost" then Ok xgb_fit
             else if String.eqb model_choice "Gradient Boosting"
                  then Ok gbr_fit
                  else Raise (PyError "UnboundLocalError")) ;;
     model <- fit (matrix X_train) y_train ;;
     input_data <- iloc_last_values X_train ;;
     let predictions := rollout model future_steps input_data [] in
     last <- index_last data ;;
     let future_index :=
       slice_from 1 (date_range last (future_steps + 1)) in
     s <- pd_Series predictions future_index ;;
     Ok (Some s))%py
  else Ok None.

(** Lines 219-222: the caller derives the horizon from the length of
    the series. *)
Definition forecast_future_button (data : list (timestamp * V))
  (model_choice : string) (seasonal_period : option nat)
  : py_result (option (series timestamp V)) :=
  let future_steps :=
    Z.to_nat (py_int (inject_Z (Z.of_nat (length data)) * (2 # 10))%Q) in
  forecast_future data model_choice future_steps seasonal_period.

(** The recursion the specification describes, on a window held as
    the regressor's features are ordered, lag 1 first: the window
    starts as the last [k] known values, and each prediction enters
    at lag 1 while the oldest lag leaves. *)
Definition reference_seed (k : nat) (known : list V) : list V :=
  firstn k (rev known).

Fixpoint reference_rollout (model : list V -> V) (steps : nat)
  (window : list V) : list V :=
  match steps with
  | O => []
  | S steps' =>
      let next_pred := model window in
      next_pred :: reference_rollout model steps'
                     (next_pred :: removelast window)
  end.

Definition reference_forecast (model : list V -> V) (k : nat)
  (known : list V) (horizon : nat) : list V :=
  reference_rollout model horizon (reference_seed k known).

End Future.

(** ** Closed forms of what the code builds

    The statements below describe the frames and values the code
    computes through these closed forms. *)

Section ClosedForms.

Variables T V C : Type.

(** The columns the lag loop has built after [m] rounds. *)
Definition lag_columns (col : string) (f : nat -> list C) (m : nat)
  : list (string * list C) :=
  map (fun j => (lag_name col j, f j)) (seq 1 m).

(** A column without NaN. *)
Definition some_all (vals : list V) : list (option V) := map Some vals.

(** The lag column [j] of the table with [k] lags: the values [j]
    positions before the rows that remain. *)
Definition lag_column (vals : list V) (k j : nat) : list V :=
  firstn (length vals - k) (skipn (k - j) vals).

(** The features of the last training row: the values 1 to [k]
    positions before the last value of the series, nearest first. *)
Definition last_row_window (vals : list V) (k : nat) : list V :=
  flat_map (fun j => match nth_error vals (length vals - 1 - j) with
                     | Some v => [v]
                     | None => []
                     end) (seq 1 k).

End ClosedForms.

Section ClosedFrames.

Variables T V : Type.

(** The frame after [m] rounds of the loop over a base column. *)
Definition lagged (idx : list T) (col : string) (base : list (option V))
  (m : nat) : frame T (option V) :=
  mkFrame idx ((col, base) :: lag_columns col (fun j => shift j base) m).

(** The lag table the code builds, in closed form. *)
Definition lag_frame (data : list (T * V)) (k : nat) : frame T V :=
  mkFrame (skipn k (map fst data))
          (("target"%string, skipn k (map snd data))
             :: lag_columns "target" (lag_column (map snd data) k) k).

End ClosedFrames.

(** The record [calculate_metrics] returns on validated inputs. *)
Definition metrics_of (test_data predictions : list R) : Metrics :=
  let diff := residuals test_data predictions in
  mkMetrics
    (Fin (sqrt (rmean (map sq diff))))
    (Fin (rmean (map Rabs diff)))
    (fscale (pd_mean (abs_pct_errors test_data predictions)) 100)
    (if length predictions <? 2 then NaN
     else Fin (assemble_score
                 (rsum (map sq diff))
                 (rsum (map (fun y => sq (y - rmean test_data)) test_data))))
    (Fin (assemble_score
            (rmean (map (fun d => sq (d - rmean diff)%R) diff))
            (rmean (map (fun y => sq (y - rmean test_data)) test_data)))).

(** The percentage errors as reals, with the absolute value where the
    code has it: around the whole quotient. *)
Definition pct_errors (test_data predictions : list R) : list R :=
  map (fun tp => (Rabs (fst tp - snd tp) / Rabs (fst tp))%R)
      (combine test_data predictions).

(** The strategy names of the tabular branch. *)
Definition tabular (model_choice : string) : Prop :=
  model_choice = "XGBoost"%string \/ model_choice = "Gradient Boosting"%string.

Section ClosedFuture.

Variable V : Type.
Variables xgb_fit gbr_fit :
  list (list V) -> list V -> py_result (list V -> V).

(** The fitting routine the tabular branch selects. *)
Definition chosen_fit (model_choice : string)
  : list (list V) -> list V -> py_result (list V -> V) :=
  if String.eqb model_choice "XGBoost" then xgb_fit else gbr_fit.

(** The training features and targets of the extrapolator. *)
Definition future_X (data : list (timestamp * V)) : frame timestamp V :=
  mkFrame (skipn 8 (map fst data))
          (lag_columns "target" (lag_column (map snd data) 8) 8).

Definition future_y (data : list (timestamp * V)) : list V :=
  skipn 8 (map snd data).

(** The timestamps of the forecast. *)
Definition future_index (data : list (timestamp * V)) (future_steps : nat)
  : py_result (list timestamp) :=
  (last <- index_last data ;;
   Ok (slice_from 1 (date_range last (future_steps + 1))))%py.

End ClosedFuture.

(** ** The user's settings *)

(** Line 150: the test size is the slider's percentage over 100. *)
Definition slider_test_size {F : Type} `{PyFloat F} (percent : Z) : F :=
  float_div (float_of_int percent) (float_of_int 100).

(** ** Closed forms of the pipelines *)

Section ClosedPipelines.

Variable V : Type.

(** The feature row of the series position [i]: the values 1 to [k]
    positions before it, nearest first. *)
Definition window_at (vals : list V) (k i : nat) : list V :=
  flat_map (fun j => match nth_error vals (i - j) with
                     | Some v => [v]
                     | None => []
                     end) (seq 1 k).

(** The feature rows of the positions [first], ..., [first + count - 1]. *)
Definition windows (vals : list V) (k first count : nat) : list (list V) :=
  map (window_at vals k) (seq first count).

(** The rollout as a direct recursion: each step predicts from the
    window, then drops the window's first entry and appends the
    prediction. *)
Fixpoint predictions_from (model : list V -> V) (steps : nat)
  (window : list V) : list V :=
  match steps with
  | O => []
  | S steps' =>
      model window
        :: predictions_from model steps' (tl window ++ [model window])
  end.

End ClosedPipelines.

(** The number of training rows of a lag table of [rows] rows, without
    rounding. *)
Definition train_rows (rows : nat) (test_size : Q) : nat :=
  slice_bound rows (exact_train_size rows test_size).

(** The positions of the test-size slider: 10, 11, ..., 50 percent. *)
Definition slider_positions : list Z := map Z.of_nat (seq 10 41).

(** Whether the split index the program computes in doubles for a lag
    table of [rows] rows, at the slider position [percent], leaves both
    parts non-empty and at least half of the rows, rounded down, in the
    training part. *)
Definition slider_cut_in_range (rows : nat) (percent : Z) : bool :=
  match train_size_of rows (slider_test_size percent : double) with
  | Ok cut =>
      (1 <=? cut)%Z && (cut <? Z.of_nat rows)%Z
      && (Z.of_nat rows <=? 2 * cut + 1)%Z
  | Raise _ => false
  end.

(** The same for every slider position and every row count from 2 to
    [max_rows]. *)
Definition slider_cuts_in_range (max_rows : nat) : bool :=
  forallb (fun rows => forallb (slider_cut_in_range rows) slider_positions)
    (seq 2 (max_rows - 1)).

(** The series 0, 1, ..., n - 1 at the positions 0 to n - 1. *)
Definition ramp (n : nat) : list (timestamp * R) :=
  map (fun i => (Z.of_nat i, INR i)) (seq 0 n).

(** ** Inputs of the examples *)

(** The test size of the slider at 30 percent, as the program computes
    it: the double 30 / 100. *)
Definition thirty_percent : double := slider_test_size 30.

(** The series [1, 2, ..., 10] at the positions 0 to 9. *)
Definition series10 : list (Z * Z) :=
  [(0, 1); (1, 2); (2, 3); (3, 4); (4, 5);
   (5, 6); (6, 7); (7, 8); (8, 9); (9, 10)]%Z.

(** Ten points of the constant 7. *)
Definition constant10 : list (timestamp * Z) :=
  map (fun i => (Z.of_nat i, 7%Z)) (seq 0 10).

(** Five points of a real-valued monthly series. *)
Definition series5 : list (timestamp * R) :=
  [(0%Z, 1%R); (1%Z, 2%R); (2%Z, 4%R); (3%Z, 8%R); (4%Z, 16%R)].

(** The real-valued regressor that predicts its lag-1 feature. *)
Definition persistence_R (w : list R) : R := hd 0%R w.

(** ** Sample regressors for the examples *)

(** The regressor that predicts its lag-1 feature. *)
Definition persistence (w : list Z) : Z := hd 0%Z w.

(** A fit that needs at least one training row, as a regressor does,
    and then returns [persistence]. *)
Definition sample_fit (X : list (list Z)) (y : list Z)
  : py_result (list Z -> Z) :=
  match X with
  | [] => Raise ValueError
  | _ :: _ => Ok persistence
  end.

(** The examples do not enter the SARIMA branch. *)
Definition sample_sarima (data : list (timestamp * Z))
  (seasonal_period : option nat) (steps : nat)
  : py_result (series timestamp Z) :=
  Raise ValueError.

(** A regressor that agrees with [persistence] on rows of 8 features
    and answers 42 on any other row. *)
Definition persistence8 (w : list Z) : Z :=
  if length w =? 8 then hd 0%Z w else 42%Z.

(** * Properties *)

(** ** Results *)

Lemma Ok_inj (A : Type) (a b : A) : Ok a = Ok b -> a = b.
Proof. intros H. now injection H. Qed.

(** ** Column names *)

Lemma append_inj_l (a b c : string) :
  (a ++ b)%string = (a ++ c)%string -> b = c.
Proof.
  induction a as [|ch a IH]; simpl; intros H.
  - exact H.
  - injection H as H. auto.
Qed.

Lemma append_nonempty_neq (a b : string) :
  b <> EmptyString -> a <> (a ++ b)%string.
Proof.
  intros Hb. induction a as [|ch a IH]; simpl; intros H.
  - apply Hb. symmetry. exact H.
  - injection H as H. auto.
Qed.

Lemma str_of_nat_inj (i j : nat) : str_of_nat i = str_of_nat j -> i = j.
Proof.
  unfold str_of_nat. intros H.
  apply Unsigned.to_uint_inj.
  assert (E : Some (Nat.to_uint i) = Some (Nat.to_uint j)).
  { rewrite <- !NilEmpty.usu. now rewrite H. }
  now injection E.
Qed.

Lemma lag_name_inj (col : string) (i j : nat) :
  lag_name col i = lag_name col j -> i = j.
Proof.
  unfold lag_name. intros H.
  apply append_inj_l in H. apply (append_inj_l "_lag") in H.
  now apply str_of_nat_inj.
Qed.

Lemma lag_name_neq_col (col : string) (i : nat) : col <> lag_name col i.
Proof.
  unfold lag_name. apply append_nonempty_neq. discriminate.
Qed.

Lemma eqb_col_lag_name (col : string) (i : nat) :
  String.eqb col (lag_name col i) = false.
Proof. apply String.eqb_neq, lag_name_neq_col. Qed.

(** ** Association lists of columns *)

Section ColumnFacts.

Variable C : Type.
Implicit Types cols : list (string * list C).

Lemma assoc_set_fresh name (c : list C) cols :
  (forall nc, In nc cols -> fst nc <> name) ->
  assoc_set name c cols = cols ++ [(name, c)].
Proof.
  induction cols as [|[n c'] rest IH]; simpl; intros H.
  - reflexivity.
  - destruct (String.eqb n name) eqn:E.
    + apply String.eqb_eq in E. exfalso. apply (H (n, c')); auto.
    + f_equal. apply IH. intros nc Hin. apply H. auto.
Qed.

Lemma assoc_get_fresh name cols :
  (forall nc, In nc cols -> fst nc <> name) ->
  assoc_get name cols = None.
Proof.
  induction cols as [|[n c'] rest IH]; simpl; intros H.
  - reflexivity.
  - destruct (String.eqb n name) eqn:E.
    + apply String.eqb_eq in E. exfalso. apply (H (n, c')); auto.
    + apply IH. intros nc Hin. apply H. auto.
Qed.

Lemma lag_columns_S col (f : nat -> list C) m :
  lag_columns col f (S m) = lag_columns col f m ++ [(lag_name col (S m), f (S m))].
Proof.
  unfold lag_columns. rewrite seq_S, map_app. reflexivity.
Qed.

Lemma lag_columns_in col (f : nat -> list C) m nc :
  In nc (lag_columns col f m) ->
  exists j, 1 <= j <= m /\ nc = (lag_name col j, f j).
Proof.
  unfold lag_columns. rewrite in_map_iff. intros [j [E Hin]].
  apply in_seq in Hin. exists j. split; [lia | now symmetry].
Qed.

Lemma assoc_get_lag_columns col (f : nat -> list C) m j :
  1 <= j <= m ->
  assoc_get (lag_name col j) (lag_columns col f m) = Some (f j).
Proof.
  induction m as [|m IH]; intros Hj; [lia|].
  rewrite lag_columns_S.
  destruct (Nat.eq_dec j (S m)) as [->|Hne].
  - clear IH. generalize (lag_columns col f m) (lag_columns_in col f m).
    intros l Hl. induction l as [|[n c] rest IHl]; simpl.
    + now rewrite String.eqb_refl.
    + destruct (String.eqb n (lag_name col (S m))) eqn:E.
      * apply String.eqb_eq in E.
        destruct (Hl (n, c)) as [j' [Hj' E']]; [now left|].
        injection E' as -> ->. apply lag_name_inj in E. lia.
      * apply IHl. intros nc Hin. apply Hl. now right.
  - assert (Hj' : 1 <= j <= m) by lia. specialize (IH Hj').
    revert IH. generalize (lag_columns col f m).
    intros l. induction l as [|[n c] rest IHl]; simpl; [discriminate|].
    destruct (String.eqb n (lag_name col j)); auto.
Qed.

Lemma filter_not_col_lag_columns col (f : nat -> list C) m :
  filter (fun nc : string * list C => negb (String.eqb (fst nc) col))
         (lag_columns col f m) = lag_columns col f m.
Proof.
  unfold lag_columns. induction (seq 1 m) as [|j l IH]; simpl.
  - reflexivity.
  - rewrite String.eqb_sym, eqb_col_lag_name. simpl. now rewrite IH.
Qed.

End ColumnFacts.

(** ** The lag loop *)

Section LagLoop.

Variables T V : Type.

Lemma setitem_lagged (idx : list T) col (base : list (option V)) m :
  setitem (lagged idx col base m) (lag_name col (S m)) (shift (S m) base)
  = lagged idx col base (S m).
Proof.
  unfold setitem, lagged. simpl.
  rewrite eqb_col_lag_name. f_equal. f_equal.
  rewrite lag_columns_S. apply assoc_set_fresh.
  intros nc Hin. apply lag_columns_in in Hin.
  destruct Hin as [j [Hj ->]]. simpl. intros E.
  apply lag_name_inj in E. lia.
Qed.

Lemma getitem_lagged (idx : list T) col (base : list (option V)) m :
  getitem (lagged idx col base m) col = Ok base.
Proof.
  unfold getitem, lagged. simpl. now rewrite String.eqb_refl.
Qed.

Lemma xgb_get_lag_loop_lagged (idx : list T) col (base : list (option V)) r :
  forall m,
  XGBoost.get_lag_loop (seq (S m) r) (lagged idx col base m) col
  = Ok (lagged idx col base (m + r)).
Proof.
  induction r as [|r IH]; intros m; simpl.
  - now rewrite Nat.add_0_r.
  - rewrite getitem_lagged. simpl. rewrite setitem_lagged, IH.
    f_equal. f_equal. lia.
Qed.

Lemma gbr_get_lag_loop_eq (range : list nat) : forall data col,
  @GradientBoosting.get_lag_loop T V range data col
  = XGBoost.get_lag_loop range data col.
Proof.
  induction range as [|i rest IH]; intros data col; simpl.
  - reflexivity.
  - destruct (getitem data col); simpl; [apply IH | reflexivity].
Qed.

Lemma to_frame_lagged (data : list (T * V)) col :
  to_frame data col
  = lagged (map fst data) col (map (fun p => Some (snd p)) data) 0.
Proof. reflexivity. Qed.

Lemma xgb_get_lag_to_frame (data : list (T * V)) col k :
  XGBoost.get_lag (to_frame data col) col k
  = Ok (lagged (map fst data) col (map (fun p => Some (snd p)) data) k).
Proof.
  unfold XGBoost.get_lag. rewrite to_frame_lagged.
  apply (xgb_get_lag_loop_lagged _ _ _ k 0).
Qed.

End LagLoop.

(** ** Rows that survive [dropna] *)

Section DropNa.

Variable V : Type.
Implicit Types vals : list V.

Lemma cell_some_all vals r :
  r < length vals -> exists v, cell (some_all vals) r = Some v
                               /\ nth_error vals r = Some v.
Proof.
  intros Hr. unfold cell, some_all.
  destruct (nth_error vals r) as [v|] eqn:E.
  - exists v. split; [|reflexivity].
    apply nth_error_nth. now rewrite nth_error_map, E.
  - apply nth_error_None in E. lia.
Qed.

Lemma cell_shift j (c : list (option V)) r :
  r < length c ->
  cell (shift j c) r = if r <? j then None else cell c (r - j).
Proof.
  intros Hr. unfold cell, shift.
  rewrite nth_firstn. destruct (r <? length c) eqn:E.
  2:{ apply Nat.ltb_ge in E. lia. }
  destruct (r <? j) eqn:Ej.
  - apply Nat.ltb_lt in Ej. rewrite app_nth1 by (rewrite repeat_length; lia).
    apply nth_repeat_lt. lia.
  - apply Nat.ltb_ge in Ej. rewrite app_nth2 by (rewrite repeat_length; lia).
    now rewrite repeat_length.
Qed.

Lemma forallb_map_seq (A B : Type) (f : A -> B) (p : B -> bool) (l : list A) :
  forallb p (map f l) = forallb (fun a => p (f a)) l.
Proof.
  induction l as [|a l IH]; simpl; [reflexivity | now rewrite IH].
Qed.

Lemma row_complete_lagged (T : Type) (idx : list T) col vals k r :
  r < length vals ->
  row_complete (columns (lagged idx col (some_all vals) k)) r = (k <=? r).
Proof.
  intros Hr. unfold lagged, row_complete. simpl.
  destruct (cell_some_all vals Hr) as [v [-> _]]. simpl.
  unfold lag_columns. rewrite forallb_map_seq. simpl.
  assert (Hlen : r < length (some_all vals))
    by (unfold some_all; now rewrite length_map).
  destruct (k <=? r) eqn:E.
  - apply Nat.leb_le in E. apply forallb_forall. intros j Hj.
    apply in_seq in Hj. rewrite cell_shift by exact Hlen.
    destruct (r <? j) eqn:Ej; [apply Nat.ltb_lt in Ej; lia|].
    assert (Hrj : r - j < length vals) by lia.
    destruct (cell_some_all vals Hrj) as [w [-> _]]. reflexivity.
  - apply Nat.leb_gt in E.
    apply not_true_is_false. intros H.
    rewrite forallb_forall in H. specialize (H k).
    rewrite cell_shift in H by exact Hlen.
    assert (Hk : (r <? k) = true) by (apply Nat.ltb_lt; lia).
    rewrite Hk in H. simpl in H.
    assert (Hin : In k (seq 1 k)) by (apply in_seq; lia).
    specialize (H Hin). discriminate.
Qed.

Lemma filter_leb_seq k n :
  filter (fun r => k <=? r) (seq 0 n) = seq k (n - k).
Proof.
  induction n as [|n IH].
  - reflexivity.
  - rewrite seq_S, filter_app, IH. cbn [filter Nat.add].
    destruct (k <=? n) eqn:E.
    + apply Nat.leb_le in E.
      replace (S n - k) with (S (n - k)) by lia.
      rewrite seq_S. f_equal. f_equal. lia.
    + apply Nat.leb_gt in E.
      replace (S n - k) with 0 by lia. replace (n - k) with 0 by lia.
      reflexivity.
Qed.

Lemma keep_lagged (T : Type) (idx : list T) col vals k :
  length idx = length vals ->
  filter (row_complete (columns (lagged idx col (some_all vals) k)))
         (seq 0 (height (lagged idx col (some_all vals) k)))
  = seq k (length vals - k).
Proof.
  intros Hlen. unfold height. simpl. rewrite Hlen.
  rewrite <- filter_leb_seq. apply filter_ext_in.
  intros r Hr. apply in_seq in Hr. apply (row_complete_lagged idx). lia.
Qed.

End DropNa.

(** ** The lag table, column by column *)

Section LagTable.

Variables T V : Type.
Implicit Types vals : list V.

Lemma skipn_nth_error (A : Type) (l : list A) : forall i x,
  nth_error l i = Some x -> skipn i l = x :: skipn (S i) l.
Proof.
  induction l as [|a l IH]; intros [|i] x H; simpl in *; try discriminate.
  - now injection H as ->.
  - now apply IH.
Qed.

Lemma take_rows_seq (A : Type) (l : list A) : forall m k,
  k + m <= length l -> take_rows (seq k m) l = firstn m (skipn k l).
Proof.
  induction m as [|m IH]; intros k Hk; simpl.
  - reflexivity.
  - destruct (nth_error l k) as [x|] eqn:E.
    + rewrite (skipn_nth_error _ _ E). cbn [firstn app]. f_equal.
      apply IH. lia.
    + apply nth_error_None in E. lia.
Qed.

Lemma shift_0 (c : list (option V)) : shift 0 c = c.
Proof. unfold shift. simpl. apply firstn_all. Qed.

Lemma take_defined_shift vals j : forall m k,
  j <= k -> k + m <= length vals ->
  take_defined (seq k m) (shift j (some_all vals))
  = firstn m (skipn (k - j) vals).
Proof.
  induction m as [|m IH]; intros k Hj Hk; simpl.
  - reflexivity.
  - rewrite cell_shift by (unfold some_all; rewrite length_map; lia).
    assert (Ej : (k <? j) = false) by (apply Nat.ltb_ge; lia).
    rewrite Ej.
    assert (Hkj : k - j < length vals) by lia.
    destruct (cell_some_all vals Hkj) as [v [-> Hv]].
    rewrite (skipn_nth_error _ _ Hv).
    replace (S (k - j)) with (S k - j) by lia.
    cbn [firstn app]. f_equal.
    apply IH; lia.
Qed.

Lemma take_defined_some_all vals m k :
  k + m <= length vals ->
  take_defined (seq k m) (some_all vals) = firstn m (skipn k vals).
Proof.
  intros Hk. rewrite <- (shift_0 (some_all vals)).
  rewrite take_defined_shift by lia. now rewrite Nat.sub_0_r.
Qed.

Lemma firstn_sub_skipn (A : Type) (l : list A) k :
  firstn (length l - k) (skipn k l) = skipn k l.
Proof. apply firstn_all2. rewrite length_skipn. lia. Qed.

Lemma dropna_lagged (data : list (T * V)) k :
  dropna (lagged (map fst data) "target" (some_all (map snd data)) k)
  = lag_frame data k.
Proof.
  unfold dropna. rewrite keep_lagged by now rewrite !length_map.
  unfold lag_frame, lagged. cbn [index columns map fst snd].
  assert (Hidx : length (map fst data) = length (map snd data))
    by now rewrite !length_map.
  revert Hidx. generalize (map fst data) (map snd data).
  intros idx vals Hidx.
  destruct (Nat.le_gt_cases k (length vals)) as [Hk|Hk].
  - f_equal.
    + rewrite take_rows_seq by lia.
      rewrite <- Hidx. apply firstn_sub_skipn.
    + f_equal.
      * rewrite take_defined_some_all by lia.
        now rewrite firstn_sub_skipn.
      * unfold lag_columns. rewrite map_map. apply map_ext_in.
        intros j Hj. apply in_seq in Hj. cbn [fst snd]. f_equal.
        apply take_defined_shift; lia.
  - replace (length vals - k) with 0 by lia.
    cbn [seq take_rows take_defined flat_map].
    f_equal.
    + symmetry. apply skipn_all2. lia.
    + f_equal.
      * now rewrite skipn_all2 by lia.
      * unfold lag_columns. rewrite map_map. apply map_ext.
        intros j. cbn [fst snd]. f_equal. unfold lag_column.
        replace (length vals - k) with 0 by lia. reflexivity.
Qed.

Lemma some_all_snd (data : list (T * V)) :
  map (fun p => Some (snd p)) data = some_all (map snd data).
Proof. unfold some_all. now rewrite map_map. Qed.

(** The builder returns the closed form, for every series and every
    lag count. *)
Lemma xgb_lag_table_frame (data : list (T * V)) k :
  XGBoost.lag_table data k = Ok (lag_frame data k).
Proof.
  unfold XGBoost.lag_table. rewrite xgb_get_lag_to_frame. simpl.
  now rewrite some_all_snd, dropna_lagged.
Qed.

Lemma gbr_lag_table_eq (data : list (T * V)) k :
  GradientBoosting.lag_table data k = XGBoost.lag_table data k.
Proof.
  unfold GradientBoosting.lag_table, XGBoost.lag_table,
    GradientBoosting.get_lag, XGBoost.get_lag.
  now rewrite gbr_get_lag_loop_eq.
Qed.

Lemma height_lag_frame (data : list (T * V)) k :
  height (lag_frame data k) = length data - k.
Proof.
  unfold height, lag_frame. simpl. now rewrite length_skipn, length_map.
Qed.

Lemma nth_error_lag_column vals k j i :
  1 <= j <= k -> k <= i < length vals ->
  nth_error (lag_column vals k j) (i - k) = nth_error vals (i - j).
Proof.
  intros Hj Hi. unfold lag_column.
  rewrite nth_error_firstn.
  assert (E : (i - k <? length vals - k) = true) by (apply Nat.ltb_lt; lia).
  rewrite E, nth_error_skipn. f_equal. lia.
Qed.

End LagTable.

(** ** The split index *)

Lemma py_int_nonneg (q : Q) : (0 <= q)%Q -> py_int q = Qfloor q.
Proof.
  destruct q as [a d]. unfold Qle, py_int, Qfloor. simpl. intros H.
  apply Z.quot_div_nonneg; lia.
Qed.

Lemma slice_bound_le (len : nat) (i : Z) : slice_bound len i <= len.
Proof.
  unfold slice_bound. destruct (i <? 0)%Z eqn:E.
  - apply Z.ltb_lt in E. lia.
  - apply Nat.le_min_l.
Qed.

Lemma slice_bound_in_range (len : nat) (i : Z) :
  (0 <= i <= Z.of_nat len)%Z -> slice_bound len i = Z.to_nat i.
Proof.
  intros Hi. unfold slice_bound.
  destruct (i <? 0)%Z eqn:E; [apply Z.ltb_lt in E; lia|].
  apply Nat.min_r. lia.
Qed.

Lemma firstn_seq_le (m : nat) : forall start len,
  m <= len -> firstn m (seq start len) = seq start m.
Proof.
  induction m as [|m IH]; intros start [|len] H; simpl; try reflexivity.
  - lia.
  - f_equal. apply IH. lia.
Qed.

Lemma slice_from_1 (A : Type) (l : list A) : slice_from 1 l = tl l.
Proof.
  unfold slice_from, slice_bound.
  change (Z.to_nat 1) with 1. change (1 <? 0)%Z with false. cbv iota.
  destruct l as [|a l]; [reflexivity|].
  rewrite Nat.min_r by (simpl; lia). reflexivity.
Qed.

(** ** Metrics *)

Section MetricFacts.

Local Open Scope R_scope.

Lemma rsum_nonneg (l : list R) :
  (forall x, In x l -> 0 <= x) -> 0 <= rsum l.
Proof.
  induction l as [|a l IH]; simpl; intros H.
  - lra.
  - assert (0 <= a) by (apply H; now left).
    assert (0 <= rsum l) by (apply IH; intros x Hx; apply H; now right).
    lra.
Qed.

Lemma rsum_sq_nonneg (f : R -> R) (l : list R) :
  0 <= rsum (map (fun x => sq (f x)) l).
Proof.
  apply rsum_nonneg. intros x Hx. apply in_map_iff in Hx.
  destruct Hx as [y [<- _]]. unfold sq. nra.
Qed.

Lemma rsum_abs_nonneg (l : list R) : 0 <= rsum (map Rabs l).
Proof.
  apply rsum_nonneg. intros x Hx. apply in_map_iff in Hx.
  destruct Hx as [y [<- _]]. apply Rabs_pos.
Qed.

Lemma rmean_nonneg (l : list R) : 0 <= rsum l -> 0 <= rmean l.
Proof.
  intros H. unfold rmean, Rdiv.
  apply Rmult_le_pos; [exact H|].
  destruct l as [|a l].
  - simpl. rewrite Rinv_0. lra.
  - left. apply Rinv_0_lt_compat. apply lt_0_INR. simpl. lia.
Qed.

Lemma check_targets_ok (y_true y_pred : list R) :
  length y_true = length y_pred -> (1 <= length y_true)%nat ->
  check_targets y_true y_pred = Ok tt.
Proof.
  intros Hlen Hpos. unfold check_targets.
  rewrite Hlen, Nat.eqb_refl. rewrite <- Hlen.
  destruct (length y_true); [lia | reflexivity].
Qed.

Lemma assemble_score_le_1 (numerator denominator : R) :
  0 <= numerator -> 0 <= denominator ->
  assemble_score numerator denominator <= 1.
Proof.
  intros Hn Hd. unfold assemble_score.
  destruct (Req_dec_T numerator 0); [lra|].
  destruct (Req_dec_T denominator 0); [lra|].
  assert (0 < numerator / denominator).
  { apply Rdiv_lt_0_compat; lra. }
  lra.
Qed.

Lemma calculate_metrics_ok (test_data predictions : list R) :
  length test_data = length predictions -> (1 <= length test_data)%nat ->
  calculate_metrics test_data predictions
  = Ok (metrics_of test_data predictions).
Proof.
  intros Hlen Hpos.
  unfold calculate_metrics, mean_squared_error, mean_absolute_error,
    r2_score, explained_variance_score.
  rewrite (check_targets_ok _ _ Hlen Hpos). cbn [bind].
  unfold metrics_of.
  destruct (length predictions <? 2)%nat; reflexivity.
Qed.

(** The mean of finite floats. *)
Lemma fold_fadd_fin (l : list R) :
  fold_right fadd (Fin 0) (map Fin l) = Fin (rsum l).
Proof.
  induction l as [|a l IH]; simpl; [reflexivity | now rewrite IH].
Qed.

Lemma filter_notnan_fin (l : list R) :
  filter (fun a => negb (isnan a)) (map Fin l) = map Fin l.
Proof.
  induction l as [|a l IH]; simpl; [reflexivity | now rewrite IH].
Qed.

Lemma pd_mean_fin (l : list R) :
  l <> [] -> pd_mean (map Fin l) = Fin (rmean l).
Proof.
  intros Hne. unfold pd_mean. rewrite filter_notnan_fin.
  destruct l as [|a l]; [congruence|].
  cbn [map]. rewrite <- (map_cons Fin a l), fold_fadd_fin.
  unfold fscale, rmean, Rdiv. now rewrite length_map.
Qed.

Lemma fdiv_nonzero (x y : R) : y <> 0 -> fdiv x y = Fin (x / y).
Proof.
  intros Hy. unfold fdiv. destruct (Req_dec_T y 0); [contradiction|].
  reflexivity.
Qed.

Lemma abs_pct_errors_nonzero (test_data predictions : list R) :
  (forall t, In t test_data -> t <> 0) ->
  abs_pct_errors test_data predictions
  = map Fin (pct_errors test_data predictions).
Proof.
  intros Hnz. unfold abs_pct_errors, pct_errors. rewrite map_map.
  apply map_ext_in. intros [t p] Hin. cbn [fst snd].
  assert (Ht : t <> 0) by (apply Hnz; eapply in_combine_l; eauto).
  rewrite fdiv_nonzero by exact Ht. cbn [fabs].
  f_equal. unfold Rdiv. rewrite Rabs_mult, Rabs_inv. reflexivity.
Qed.

Lemma combine_nonempty (A B : Type) (l : list A) (l' : list B) :
  length l = length l' -> (1 <= length l)%nat -> combine l l' <> [].
Proof.
  destruct l, l'; simpl; intros; try lia; discriminate.
Qed.

End MetricFacts.

(** ** The future extrapolator *)

Section FutureFacts.

Variable V : Type.
Variable sarima_future :
  list (timestamp * V) -> option nat -> nat ->
  py_result (series timestamp V).
Variables xgb_fit gbr_fit :
  list (list V) -> list V -> py_result (list V -> V).

Let forecast := forecast_future sarima_future xgb_fit gbr_fit.

Lemma future_lag_loop_eq (range : list nat) :
  forall fr : frame timestamp (option V),
  future_lag_loop range fr = XGBoost.get_lag_loop range fr "target".
Proof.
  induction range as [|i rest IH]; intros fr; simpl.
  - reflexivity.
  - destruct (getitem fr "target"); simpl; [apply IH | reflexivity].
Qed.

Lemma future_lag_table (data : list (timestamp * V)) :
  (fr <- future_lag_loop (seq 1 8) (to_frame data "target") ;;
   Ok (dropna fr))%py = Ok (lag_frame data 8).
Proof.
  rewrite future_lag_loop_eq.
  exact (xgb_lag_table_frame data 8).
Qed.

Lemma drop_target_lag_frame (T : Type) (data : list (T * V)) k :
  drop_column (lag_frame data k) "target"
  = Ok (mkFrame (skipn k (map fst data))
          (lag_columns "target" (lag_column (map snd data) k) k)).
Proof.
  unfold drop_column, lag_frame.
  cbn [columns index assoc_get filter fst].
  rewrite String.eqb_refl. cbn [negb].
  now rewrite filter_not_col_lag_columns.
Qed.

Lemma getitem_target_lag_frame (T : Type) (data : list (T * V)) k :
  getitem (lag_frame data k) "target" = Ok (skipn k (map snd data)).
Proof.
  unfold getitem, lag_frame. cbn [columns assoc_get].
  now rewrite String.eqb_refl.
Qed.

Lemma tabular_not_sarima model_choice :
  tabular model_choice ->
  String.eqb model_choice "SARIMA" = false
  /\ existsb (String.eqb model_choice) ["XGBoost"; "Gradient Boosting"]%string
     = true.
Proof.
  intros [-> | ->]; split; reflexivity.
Qed.

(** The tabular branch up to the fit. *)
Lemma forecast_tabular_unfold data model_choice future_steps period :
  tabular model_choice ->
  forecast data model_choice future_steps period
  = (model <- chosen_fit xgb_fit gbr_fit model_choice (matrix (future_X data))
                (future_y data) ;;
     input_data <- iloc_last_values (future_X data) ;;
     let predictions := rollout model future_steps input_data [] in
     future_index <- future_index data future_steps ;;
     s <- pd_Series predictions future_index ;;
     Ok (Some s))%py.
Proof.
  intros Htab. unfold forecast, forecast_future.
  destruct (tabular_not_sarima Htab) as [-> ->].
  rewrite future_lag_loop_eq.
  pose proof (xgb_lag_table_frame data 8) as Hlag.
  unfold XGBoost.lag_table, XGBoost.get_lag in Hlag.
  destruct (XGBoost.get_lag_loop (seq 1 8) (to_frame data "target") "target")
    as [fr|e]; [|discriminate].
  cbn [bind] in Hlag |- *. apply Ok_inj in Hlag. rewrite Hlag.
  rewrite drop_target_lag_frame, getitem_target_lag_frame. cbn [bind].
  fold (future_X data). fold (future_y data).
  unfold chosen_fit, future_index.
  destruct Htab as [-> | ->]; cbn [String.eqb Ascii.eqb Bool.eqb bind];
    destruct (_ (matrix (future_X data)) (future_y data)); cbn [bind];
    try reflexivity;
    destruct (iloc_last_values (future_X data)); cbn [bind];
    try reflexivity;
    destruct (index_last data); reflexivity.
Qed.

(** A series of at most 8 points leaves no training row: the tabular
    branch raises, whatever the fit does. *)
Lemma forecast_tabular_short data model_choice future_steps period :
  tabular model_choice -> length data <= 8 ->
  raises (forecast data model_choice future_steps period).
Proof.
  intros Htab Hlen. rewrite forecast_tabular_unfold by exact Htab.
  destruct (chosen_fit xgb_fit gbr_fit model_choice _ _) as [model|e]; cbn [bind].
  2:{ now exists e. }
  unfold iloc_last_values, height, future_X. cbn [index].
  rewrite length_skipn, length_map.
  replace (length data - 8) with 0 by lia. cbn [bind].
  now exists IndexError.
Qed.

Lemma row_values_future_X (data : list (timestamp * V)) :
  8 < length data ->
  row_values (future_X data) (length data - 9)
  = last_row_window (map snd data) 8.
Proof.
  intros Hlen. unfold row_values, future_X, last_row_window, lag_columns.
  cbn [columns]. rewrite flat_map_concat_map, map_map.
  rewrite <- flat_map_concat_map.
  assert (Hv : length (map snd data) = length data) by apply length_map.
  revert Hv. generalize (map snd data). intros vals Hv.
  assert (E : forall j, In j (seq 1 8) ->
            nth_error (lag_column vals 8 j) (length data - 9)
            = nth_error vals (length vals - 1 - j)).
  { intros j Hj. apply in_seq in Hj.
    replace (length data - 9) with ((length data - 1) - 8) by lia.
    rewrite nth_error_lag_column by lia. f_equal. lia. }
  revert E. generalize (seq 1 8). intros l E.
  induction l as [|j l IH]; [reflexivity|].
  cbn [flat_map snd]. rewrite E by now left.
  f_equal. apply IH. intros j' Hj'. apply E. now right.
Qed.

Lemma iloc_last_future_X (data : list (timestamp * V)) :
  8 < length data ->
  iloc_last_values (future_X data) = Ok (last_row_window (map snd data) 8).
Proof.
  intros Hlen. unfold iloc_last_values.
  assert (Hh : height (future_X data) = S (length data - 9)).
  { unfold height, future_X. cbn [index].
    rewrite length_skipn, length_map. lia. }
  rewrite Hh. now rewrite row_values_future_X.
Qed.

Lemma rollout_length (model : list V -> V) :
  forall steps (input_data predictions : list V),
  length (rollout model steps input_data predictions)
  = length predictions + steps.
Proof.
  induction steps as [|steps IH]; intros input_data predictions; simpl.
  - lia.
  - rewrite IH, length_app. simpl. lia.
Qed.

Lemma date_range_length start periods :
  length (date_range start periods) = periods.
Proof. unfold date_range. now rewrite length_map, length_seq. Qed.

Lemma future_index_ok (data : list (timestamp * V)) future_steps :
  data <> [] ->
  exists idx, future_index data future_steps = Ok idx
              /\ length idx = future_steps.
Proof.
  intros Hne. unfold future_index, index_last.
  destruct (rev data) as [|p rest] eqn:E.
  - exfalso. apply Hne. apply (f_equal (@rev _)) in E.
    now rewrite rev_involutive in E.
  - cbn [bind]. eexists. split; [reflexivity|].
    rewrite slice_from_1. unfold date_range.
    rewrite Nat.add_1_r. cbn [seq map tl].
    now rewrite length_map, length_seq.
Qed.

(** The tabular branch on a series longer than the lag count, once
    the regressor has fitted. *)
Lemma forecast_tabular_ok data model_choice future_steps period model :
  tabular model_choice -> 8 < length data ->
  chosen_fit xgb_fit gbr_fit model_choice (matrix (future_X data)) (future_y data)
  = Ok model ->
  exists idx,
    future_index data future_steps = Ok idx
    /\ length idx = future_steps
    /\ forecast data model_choice future_steps period
       = Ok (Some (mkSeries idx
               (rollout model future_steps
                  (last_row_window (map snd data) 8) []))).
Proof.
  intros Htab Hlen Hfit.
  assert (Hne : data <> []) by (destruct data; simpl in *; [lia|discriminate]).
  destruct (future_index_ok future_steps Hne) as [idx [Hidx Hl]].
  exists idx. split; [exact Hidx|]. split; [exact Hl|].
  rewrite forecast_tabular_unfold by exact Htab.
  rewrite Hfit. cbn [bind]. rewrite iloc_last_future_X by exact Hlen.
  cbn [bind]. rewrite Hidx. cbn [bind].
  unfold pd_Series. rewrite rollout_length, Hl. cbn [length Nat.add].
  now rewrite Nat.eqb_refl.
Qed.

End FutureFacts.

(** * The claims *)

Lemma frame_cell_target (T V : Type) (data : list (T * V)) k r :
  frame_cell (lag_frame data k) "target" r
  = nth_error (skipn k (map snd data)) r.
Proof.
  unfold frame_cell, lag_frame. cbn [columns assoc_get].
  now rewrite String.eqb_refl.
Qed.

Lemma frame_cell_lag (T V : Type) (data : list (T * V)) k j r :
  1 <= j <= k ->
  frame_cell (lag_frame data k) (lag_name "target" j) r
  = nth_error (lag_column (map snd data) k j) r.
Proof.
  intros Hj. unfold frame_cell, lag_frame. cbn [columns assoc_get].
  rewrite eqb_col_lag_name.
  now rewrite assoc_get_lag_columns by exact Hj.
Qed.

(** C2. For a series of length n and a lag count k with 1 <= k < n the
    lag-table builder returns a table of n - k rows; the row aligned to
    the series position i >= k carries the timestamp of position i, the
    target series[i] and, for each j in 1..k, the lag series[i - j].
    For the series 1..10 and k = 2 the table has 8 rows and its first
    row is target 3, lag1 2, lag2 1. *)
Theorem lag_table_rows :
  (forall (T V : Type) (data : list (T * V)) (k : nat),
      1 <= k < length data ->
      exists fr,
        XGBoost.lag_table data k = Ok fr
        /\ height fr = length data - k
        /\ forall i t v,
             k <= i -> nth_error data i = Some (t, v) ->
             nth_error (index fr) (i - k) = Some t
             /\ frame_cell fr "target" (i - k) = Some v
             /\ forall j, 1 <= j <= k ->
                  exists t' v',
                    nth_error data (i - j) = Some (t', v')
                    /\ frame_cell fr (lag_name "target" j) (i - k) = Some v')
  /\ (exists fr,
        XGBoost.lag_table series10 2 = Ok fr
        /\ height fr = 8
        /\ frame_cell fr "target" 0 = Some 3%Z
        /\ frame_cell fr "target_lag1" 0 = Some 2%Z
        /\ frame_cell fr "target_lag2" 0 = Some 1%Z).
Proof.
  split.
  - intros T V data k Hk. exists (lag_frame data k).
    split; [apply xgb_lag_table_frame|].
    split; [apply height_lag_frame|].
    intros i t v Hi Hnth.
    assert (Hlt : i < length data) by (apply nth_error_Some; congruence).
    split; [|split].
    + unfold lag_frame. cbn [index]. rewrite nth_error_skipn.
      replace (k + (i - k)) with i by lia.
      now rewrite nth_error_map, Hnth.
    + rewrite frame_cell_target, nth_error_skipn.
      replace (k + (i - k)) with i by lia.
      now rewrite nth_error_map, Hnth.
    + intros j Hj. rewrite frame_cell_lag by exact Hj.
      rewrite nth_error_lag_column by (rewrite ?length_map; lia).
      rewrite nth_error_map.
      destruct (nth_error data (i - j)) as [[t' v']|] eqn:E.
      * exists t', v'. split; reflexivity.
      * apply nth_error_None in E. lia.
  - eexists. split; [reflexivity|]. repeat split; reflexivity.
Qed.

Lemma lag_table_rows_witness :
  exists fr,
    XGBoost.lag_table series10 3 = Ok fr
    /\ height fr = 7
    /\ nth_error (index fr) 0 = Some 3%Z
    /\ frame_cell fr "target" 0 = Some 4%Z.
Proof.
  destruct (proj1 lag_table_rows Z Z series10 3) as [fr [Hfr [Hh Hrow]]].
  - simpl. lia.
  - exists fr. split; [exact Hfr|]. split; [exact Hh|].
    destruct (Hrow 3 3%Z 4%Z) as [Hi [Ht _]].
    + lia.
    + reflexivity.
    + split; [exact Hi | exact Ht].
Defined.

(** C6, as the code has it. The lag-feature builder never fails: for
    every series and every lag count k it returns a table, with
    len(series) - k rows when k <= len(series) and no row when
    k >= len(series); k = 0 gives the n-row table of the target column
    alone. *)
Theorem lag_table_total (T V : Type) (data : list (T * V)) (k : nat) :
  exists fr,
    XGBoost.lag_table data k = Ok fr
    /\ height fr = length data - k
    /\ (length data <= k -> index fr = [])
    /\ (k = 0 -> columns fr = [("target"%string, map snd data)]).
Proof.
  exists (lag_frame data k).
  split; [apply xgb_lag_table_frame|].
  split; [apply height_lag_frame|]. split.
  - intros Hk. unfold lag_frame. cbn [index].
    apply skipn_all2. now rewrite length_map.
  - intros ->. reflexivity.
Qed.

Lemma lag_table_total_witness :
  exists fr,
    XGBoost.lag_table (firstn 3 series10) 0 = Ok fr
    /\ columns fr = [("target"%string, [1; 2; 3]%Z)].
Proof.
  destruct (lag_table_total (firstn 3 series10) 0) as [fr [Hfr [_ [_ Hc]]]].
  exists fr. split; [exact Hfr|]. now rewrite Hc.
Defined.

(** C6, as stated, fails: with 5 lags on a series of 3 points, and with
    0 lags, the builder returns a table and raises nothing. *)
Lemma lag_table_never_insufficient_history :
  ~ (1 <= 5 < length (firstn 3 series10))
  /\ XGBoost.lag_table (firstn 3 series10) 5
     = Ok (lag_frame (firstn 3 series10) 5)
  /\ XGBoost.lag_table (firstn 3 series10) 5
     <> Raise (PyError "InsufficientHistory")
  /\ XGBoost.lag_table (firstn 3 series10) 0
     <> Raise (PyError "InsufficientHistory").
Proof.
  split; [simpl; lia|].
  split; [reflexivity|].
  split; discriminate.
Qed.

(** ** The split in double arithmetic *)

Lemma int_of_double_finite (x : double) :
  double_finite x = true -> exists z, int_of_double x = Ok z.
Proof.
  destruct x; simpl; intros H; try discriminate; eexists; reflexivity.
Qed.

Lemma int_of_double_floor (x : double) :
  double_finite x = true -> double_nonneg x = true ->
  int_of_double x = Ok (Qfloor (double_value x)).
Proof.
  destruct x as [s | s | | s m e]; simpl; intros Hf Hs; try discriminate.
  - reflexivity.
  - destruct s; [discriminate|]. f_equal.
    destruct e as [|p|p].
    + now rewrite Qfloor_Z.
    + now rewrite Qfloor_Z.
    + unfold Qfloor. now rewrite Pos2Z.inj_pow.
Qed.

Section SplitFacts.

Context {F : Type} {PF : PyFloat F}.

Lemma sarima_split_cut (A : Type) (data : list A) (test_size : F)
  (train_size : Z) :
  train_size_of (length data) test_size = Ok train_size ->
  sarima_split data test_size
  = Ok (firstn (slice_bound (length data) train_size) data,
        skipn (slice_bound (length data) train_size) data).
Proof.
  intros H. unfold sarima_split. rewrite H. reflexivity.
Qed.

Lemma iloc_well_formed (T C : Type) (fr : frame T C) (i : Z) :
  (forall nc, In nc (columns fr) -> length (snd nc) = height fr) ->
  iloc_to i fr
  = mkFrame (firstn (slice_bound (height fr) i) (index fr))
      (map (fun nc => (fst nc, firstn (slice_bound (height fr) i) (snd nc)))
           (columns fr))
  /\ iloc_from i fr
     = mkFrame (skipn (slice_bound (height fr) i) (index fr))
         (map (fun nc => (fst nc, skipn (slice_bound (height fr) i) (snd nc)))
              (columns fr)).
Proof.
  intros Hwf. unfold iloc_to, iloc_from, slice_to, slice_from, height.
  split; f_equal; apply map_ext_in; intros nc Hin;
    rewrite (Hwf nc Hin); reflexivity.
Qed.

End SplitFacts.

(** C3, as the code has it. The split index is
    train_size = int(n * (1 - test_fraction)) evaluated in the float
    arithmetic of the program, IEEE doubles: the floor of the rounded
    product when that is finite and not negative, which can lie below
    the floor of the exact product. Whenever int() returns, train is
    the positions before the cut c and test the positions from c on,
    where c is train_size as a slice bound (c = train_size when
    0 <= train_size <= n): the parts concatenate to the data in its
    order, their lengths sum to n, every train position precedes every
    test position, and a frame of n rows is cut at the same row in its
    index and in every column. The split of 10 positions at 0.2 is
    [0, 8) and [8, 10). *)
Theorem chronological_split :
  (forall (F : Type) (PF : PyFloat F) (A : Type) (data : list A)
          (test_size : F) (train_size : Z),
      train_size_of (length data) test_size = Ok train_size ->
      let n := length data in
      let c := slice_bound n train_size in
      exists train test,
        sarima_split data test_size = Ok (train, test)
        /\ train = firstn c data
        /\ test = skipn c data
        /\ c <= n
        /\ ((0 <= train_size <= Z.of_nat n)%Z -> c = Z.to_nat train_size)
        /\ train ++ test = data
        /\ length train = c
        /\ length train + length test = n
        /\ (forall i, i < c -> nth_error train i = nth_error data i)
        /\ (forall i, nth_error test i = nth_error data (c + i))
        /\ sarima_split (seq 0 n) test_size = Ok (seq 0 c, seq c (n - c))
        /\ forall (T C : Type) (fr : frame T C),
             height fr = n ->
             (forall nc, In nc (columns fr) -> length (snd nc) = n) ->
             iloc_to train_size fr
             = mkFrame (firstn c (index fr))
                 (map (fun nc => (fst nc, firstn c (snd nc))) (columns fr))
             /\ iloc_from train_size fr
                = mkFrame (skipn c (index fr))
                    (map (fun nc => (fst nc, skipn c (snd nc)))
                         (columns fr)))
  /\ (forall (n : nat) (test_size : double),
        double_finite (scaled_length n test_size) = true ->
        exists train_size,
          train_size_of n test_size = Ok train_size
          /\ (double_nonneg (scaled_length n test_size) = true ->
              train_size = Qfloor (double_value (scaled_length n test_size))))
  /\ sarima_split (seq 0 10) (slider_test_size 20 : double)
     = Ok (seq 0 8, seq 8 2).
Proof.
  split; [|split].
  - intros F PF A data test_size train_size Hts n c.
    pose proof (slice_bound_le n train_size) as Hc. fold c in Hc.
    exists (firstn c data), (skipn c data).
    split; [now apply sarima_split_cut|].
    split; [reflexivity|]. split; [reflexivity|].
    split; [exact Hc|].
    split; [intros Hr; now apply slice_bound_in_range|].
    split; [apply firstn_skipn|].
    split; [rewrite length_firstn; fold n; lia|].
    split; [rewrite length_firstn, length_skipn; fold n; lia|].
    split.
    { intros i Hi. rewrite nth_error_firstn.
      apply Nat.ltb_lt in Hi. now rewrite Hi. }
    split; [intros i; apply nth_error_skipn|].
    split.
    { rewrite (sarima_split_cut (seq 0 n) test_size (train_size := train_size))
        by (rewrite length_seq; exact Hts).
      rewrite length_seq. fold c.
      rewrite firstn_seq_le by exact Hc. now rewrite skipn_seq. }
    intros T C fr Hh Hwf.
    assert (Hwf' : forall nc, In nc (columns fr) ->
                     length (snd nc) = height fr)
      by (intros nc Hin; rewrite Hh; now apply Hwf).
    destruct (iloc_well_formed fr train_size Hwf') as [Hto Hfrom].
    rewrite Hh in Hto, Hfrom. fold c in Hto, Hfrom. now split.
  - intros n test_size Hfin. unfold train_size_of.
    cbn [int_of_float double_float].
    destruct (int_of_double_finite _ Hfin) as [z Hz].
    exists z. split; [exact Hz|].
    intros Hs. rewrite (int_of_double_floor _ Hfin Hs) in Hz.
    now apply Ok_inj in Hz.
  - vm_compute. reflexivity.
Qed.

Lemma chronological_split_witness :
  sarima_split [10; 20; 30; 40; 50] (slider_test_size 30 : double)
  = Ok ([10; 20; 30], [40; 50]).
Proof.
  destruct (proj1 chronological_split double double_float nat
              [10; 20; 30; 40; 50] (slider_test_size 30) 3%Z)
    as [train [test [Hrun [Htrain [Htest _]]]]].
  - vm_compute. reflexivity.
  - rewrite Hrun, Htrain, Htest. reflexivity.
Defined.

(** C3, as stated, fails: for 90 positions and the test fraction 0.3
    (the double 30/100, which lies in (0, 1)) the code cuts at 62, while
    the floor of the exact product 90 * (1 - 0.3) is 63, for the exact
    value of that double and for the rational 3/10 alike. *)
Lemma split_cut_below_exact_floor :
  (0 < double_value thirty_percent)%Q
  /\ (double_value thirty_percent < 1)%Q
  /\ train_size_of 90 thirty_percent = Ok 62%Z
  /\ sarima_split (seq 0 90) thirty_percent = Ok (seq 0 62, seq 62 28)
  /\ Qfloor (inject_Z 90 * (1 - double_value thirty_percent)) = 63%Z
  /\ Qfloor (inject_Z 90 * (1 - (30 # 100))) = 63%Z.
Proof.
  repeat split; vm_compute; reflexivity.
Qed.

(** C9. The XGBoost and the gradient boosting pipelines build the same
    lag table and, from it, the same split, feature matrices and target
    vectors; run with the same regressor they return the same result. *)
Theorem tabular_pipelines_agree (F : Type) (PF : PyFloat F) (T : Type)
  (data : list (T * R)) (lag_features : nat) (test_size : F) :
  GradientBoosting.lag_table data lag_features
  = XGBoost.lag_table data lag_features
  /\ GradientBoosting.prepare data lag_features test_size
     = XGBoost.prepare data lag_features test_size
  /\ forall reg : list (list R) -> list R -> py_result (list R -> R),
       GradientBoosting.gradient_boosting_forecast reg data lag_features
         test_size
       = XGBoost.xgboost_forecast (fun X y _ => reg X y) data lag_features
           test_size.
Proof.
  assert (Hprep : GradientBoosting.prepare data lag_features test_size
                  = XGBoost.prepare data lag_features test_size).
  { unfold GradientBoosting.prepare, XGBoost.prepare.
    now rewrite gbr_lag_table_eq. }
  split; [apply gbr_lag_table_eq|]. split; [exact Hprep|].
  intros reg.
  unfold GradientBoosting.gradient_boosting_forecast,
    XGBoost.xgboost_forecast.
  rewrite Hprep. reflexivity.
Qed.

Section MetricClaims.

Local Open Scope R_scope.

Lemma mape_metrics_of (truth predicted : list R) :
  length truth = length predicted -> (1 <= length truth)%nat ->
  (forall t, In t truth -> t <> 0) ->
  MAPE (metrics_of truth predicted)
  = Fin (rmean (pct_errors truth predicted) * 100).
Proof.
  intros Hlen Hpos Hnz. unfold metrics_of. cbn [MAPE].
  rewrite abs_pct_errors_nonzero by exact Hnz.
  rewrite pd_mean_fin; [reflexivity|].
  unfold pct_errors. intros E. apply map_eq_nil in E.
  revert E. now apply combine_nonempty.
Qed.

(** C4, as the code has it. For equal-length, non-empty sequences
    whose truth values are all nonzero, [calculate_metrics] returns
    MAPE = mean(|truth_i - predicted_i| / |truth_i|) * 100, the
    absolute value taken of the whole quotient; no quotient takes the
    zero-divisor branch; and when every truth value is positive this
    is mean(|truth_i - predicted_i| / truth_i) * 100. *)
Theorem mape_nonzero_truth (truth predicted : list R) :
  length truth = length predicted -> (1 <= length truth)%nat ->
  (forall t, In t truth -> t <> 0) ->
  exists m,
    calculate_metrics truth predicted = Ok m
    /\ MAPE m = Fin (rmean (pct_errors truth predicted) * 100)
    /\ (forall t p, In (t, p) (combine truth predicted) ->
          fdiv (t - p) t = Fin ((t - p) / t))
    /\ ((forall t, In t truth -> 0 < t) ->
          MAPE m = Fin (spec_mape truth predicted)).
Proof.
  intros Hlen Hpos Hnz. exists (metrics_of truth predicted).
  split; [now apply calculate_metrics_ok|].
  pose proof (mape_metrics_of truth predicted Hlen Hpos Hnz) as Hmape.
  split; [exact Hmape|]. split.
  - intros t p Hin. apply fdiv_nonzero, Hnz.
    eapply in_combine_l; eauto.
  - intros Hgt. rewrite Hmape. unfold spec_mape, pct_errors.
    do 3 f_equal. apply map_ext_in. intros [t p] Hin. cbn [fst snd].
    rewrite (Rabs_right t); [reflexivity|].
    left. apply Hgt. eapply in_combine_l; eauto.
Qed.

Lemma mape_nonzero_truth_witness :
  exists m,
    calculate_metrics [2; 4] [1; 5] = Ok m
    /\ MAPE m = Fin (rmean (pct_errors [2; 4] [1; 5]) * 100).
Proof.
  destruct (mape_nonzero_truth [2; 4] [1; 5]) as [m [Hm [Hmape _]]].
  - reflexivity.
  - simpl. lia.
  - simpl. intros t [<- | [<- | []]]; lra.
  - exists m. split; [exact Hm | exact Hmape].
Defined.

(** C4, as stated, fails on a negative truth value: for truth [-1]
    and prediction [0] the code returns MAPE = 100, while
    mean(|truth - predicted| / truth) * 100 is -100. *)
Lemma mape_negative_truth :
  (forall t, In t [-1] -> t <> 0)
  /\ exists m,
       calculate_metrics [-1] [0] = Ok m
       /\ MAPE m = Fin 100
       /\ spec_mape [-1] [0] = -100
       /\ MAPE m <> Fin (spec_mape [-1] [0]).
Proof.
  assert (Hnz : forall t, In t [-1] -> t <> 0).
  { intros t [<- | []]. lra. }
  split; [exact Hnz|].
  exists (metrics_of [-1] [0]).
  split; [apply calculate_metrics_ok; simpl; lia|].
  assert (Hcode : MAPE (metrics_of [-1] [0]) = Fin 100).
  { rewrite mape_metrics_of by (simpl; auto). f_equal. unfold rmean, pct_errors, rsum. simpl.
    replace (-1 - 0) with (-1) by lra.
    rewrite Rabs_left by lra. field. }
  assert (Hspec : spec_mape [-1] [0] = -100).
  { unfold spec_mape, rmean, rsum. simpl.
    replace (-1 - 0) with (-1) by lra.
    rewrite Rabs_left by lra. field. }
  split; [exact Hcode|]. split; [exact Hspec|].
  rewrite Hcode, Hspec. intros E. injection E as E. lra.
Qed.

End MetricClaims.

Section MetricBounds.

Local Open Scope R_scope.

Lemma r2_metrics_of_single (t p : R) : R2 (metrics_of [t] [p]) = NaN.
Proof. reflexivity. Qed.

(** C8, as the code has it. For equal-length sequences of at least
    one sample [calculate_metrics] returns RMSE >= 0 and MAE >= 0;
    R2 <= 1 holds from two samples on, while for a single sample R2
    is NaN, which is below nothing. *)
Theorem metrics_bounds (truth predicted : list R) :
  length truth = length predicted -> (1 <= length truth)%nat ->
  exists m,
    calculate_metrics truth predicted = Ok m
    /\ fle (Fin 0) (RMSE m)
    /\ fle (Fin 0) (MAE m)
    /\ ((2 <= length truth)%nat -> fle (R2 m) (Fin 1))
    /\ (length truth = 1%nat -> R2 m = NaN).
Proof.
  intros Hlen Hpos. exists (metrics_of truth predicted).
  split; [now apply calculate_metrics_ok|].
  unfold metrics_of. cbn [RMSE MAE R2 fle].
  split; [apply sqrt_pos|].
  split; [apply rmean_nonneg, rsum_abs_nonneg|].
  split.
  - intros H2.
    assert (E : (length predicted <? 2)%nat = false)
      by (apply Nat.ltb_ge; lia).
    rewrite E. cbn [fle].
    apply assemble_score_le_1.
    + apply (rsum_sq_nonneg (fun x => x)).
    + apply (rsum_sq_nonneg (fun y => y - rmean truth)).
  - intros H1.
    assert (E : (length predicted <? 2)%nat = true)
      by (apply Nat.ltb_lt; lia).
    now rewrite E.
Qed.

Lemma metrics_bounds_witness :
  exists m,
    calculate_metrics [1; 2; 3] [1; 2; 4] = Ok m
    /\ fle (Fin 0) (RMSE m) /\ fle (Fin 0) (MAE m) /\ fle (R2 m) (Fin 1).
Proof.
  destruct (metrics_bounds [1; 2; 3] [1; 2; 4])
    as [m [Hm [Hrmse [Hmae [Hr2 _]]]]].
  - reflexivity.
  - simpl. lia.
  - exists m. repeat split; try assumption. apply Hr2. simpl. lia.
Defined.

(** C8, as stated, fails at length 1: for truth [1] and prediction
    [2] the returned R2 is NaN, and NaN <= 1 is false. *)
Lemma r2_single_sample_nan :
  length [1] = length [2] /\ (1 <= length [1])%nat
  /\ exists m,
       calculate_metrics [1] [2] = Ok m
       /\ R2 m = NaN
       /\ ~ fle (R2 m) (Fin 1).
Proof.
  split; [reflexivity|]. split; [simpl; lia|].
  exists (metrics_of [1] [2]).
  split; [apply calculate_metrics_ok; simpl; lia|].
  rewrite r2_metrics_of_single. split; [reflexivity|].
  intros H. exact H.
Qed.

End MetricBounds.

(** ** The rollout on a constant window *)

Section RolloutFacts.

Variable V : Type.

Lemma last_row_window_const (vals : list V) (c : V) (k : nat) :
  k < length vals -> (forall v, In v vals -> v = c) ->
  last_row_window vals k = repeat c k.
Proof.
  intros Hk Hc. unfold last_row_window.
  assert (E : forall j, In j (seq 1 k) ->
            nth_error vals (length vals - 1 - j) = Some c).
  { intros j Hj. apply in_seq in Hj.
    destruct (nth_error vals (length vals - 1 - j)) as [v|] eqn:E.
    - f_equal. apply Hc. eapply nth_error_In; eauto.
    - apply nth_error_None in E. lia. }
  rewrite <- (length_seq k 1) at 2.
  revert E. generalize (seq 1 k). intros l E.
  induction l as [|j l IH]; [reflexivity|].
  cbn [flat_map length repeat]. rewrite E by now left.
  cbn [app]. f_equal. apply IH. intros j' Hj'. apply E. now right.
Qed.

Lemma shift_window_const (c : V) (k : nat) :
  slice_from 1 (repeat c (S k)) ++ [c] = repeat c (S k).
Proof.
  rewrite slice_from_1. cbn [repeat tl].
  symmetry. apply repeat_cons.
Qed.

Lemma rollout_const (model : list V -> V) (c : V) (k : nat) :
  model (repeat c (S k)) = c ->
  forall steps predictions,
    rollout model steps (repeat c (S k)) predictions
    = predictions ++ repeat c steps.
Proof.
  intros Hm. induction steps as [|steps IH]; intros predictions.
  - simpl. now rewrite app_nil_r.
  - cbn [rollout]. rewrite Hm, shift_window_const, IH.
    rewrite <- app_assoc. reflexivity.
Qed.

End RolloutFacts.

Section FutureClaims.

Variable V : Type.
Variable sarima_future :
  list (timestamp * V) -> option nat -> nat ->
  py_result (series timestamp V).
Variables xgb_fit gbr_fit :
  list (list V) -> list V -> py_result (list V -> V).

(** C5. For a series of more than 8 points that all equal c, and a
    tabular strategy whose fitted model maps the all-c window to c,
    the extrapolation with horizon h returns exactly h values, each
    equal to c. *)
Theorem constant_series_forecast (data : list (timestamp * V)) (c : V)
  (model_choice : string) (horizon : nat) (seasonal_period : option nat)
  (model : list V -> V) :
  8 < length data ->
  (forall p, In p data -> snd p = c) ->
  tabular model_choice ->
  chosen_fit xgb_fit gbr_fit model_choice (matrix (future_X data))
    (future_y data) = Ok model ->
  model (repeat c 8) = c ->
  exists s,
    forecast_future sarima_future xgb_fit gbr_fit data model_choice
      horizon seasonal_period = Ok (Some s)
    /\ s_values s = repeat c horizon
    /\ length (s_values s) = horizon
    /\ length (s_index s) = horizon.
Proof.
  intros Hlen Hc Htab Hmodel Hconst.
  destruct (forecast_tabular_ok sarima_future xgb_fit gbr_fit data
              horizon seasonal_period Htab Hlen Hmodel)
    as [idx [_ [Hidx Hrun]]].
  eexists. split; [exact Hrun|]. cbn [s_values s_index].
  assert (Hw : last_row_window (map snd data) 8 = repeat c 8).
  { apply last_row_window_const.
    - now rewrite length_map.
    - intros v Hv. apply in_map_iff in Hv.
      destruct Hv as [p [<- Hp]]. now apply Hc. }
  rewrite Hw, (@rollout_const V model c 7 Hconst). cbn [app].
  split; [reflexivity|]. split; [apply repeat_length | exact Hidx].
Qed.

(** C7, as the code has it. For a strategy name outside
    {"SARIMA", "XGBoost", "Gradient Boosting"} the extrapolator raises
    nothing: it falls through both branches and returns None. *)
Theorem unknown_strategy_returns_none (data : list (timestamp * V))
  (model_choice : string) (future_steps : nat)
  (seasonal_period : option nat) :
  model_choice <> "SARIMA"%string ->
  model_choice <> "XGBoost"%string ->
  model_choice <> "Gradient Boosting"%string ->
  forecast_future sarima_future xgb_fit gbr_fit data model_choice
    future_steps seasonal_period = Ok None.
Proof.
  intros Hs Hx Hg. unfold forecast_future.
  apply String.eqb_neq in Hs, Hx, Hg.
  rewrite Hs. cbn [existsb]. rewrite Hx, Hg. reflexivity.
Qed.

(** The horizon the caller derives is 0 exactly below 5 points. *)
Lemma caller_horizon_zero (n : nat) :
  Z.to_nat (py_int (inject_Z (Z.of_nat n) * (2 # 10))%Q) = 0 <-> n < 5.
Proof.
  unfold py_int. cbn [Qmult Qnum Qden inject_Z].
  rewrite Z.quot_div_nonneg by lia.
  replace (Z.pos (1 * 10)) with 10%Z by reflexivity.
  split; intros H.
  - assert (Hq : (Z.of_nat n * 2 / 10 <= 0)%Z) by lia.
    assert (Hd : (Z.of_nat n * 2 < 10 * (Z.of_nat n * 2 / 10 + 1))%Z).
    { pose proof (Z.mul_succ_div_gt (Z.of_nat n * 2) 10). lia. }
    nia.
  - assert (Hq : (Z.of_nat n * 2 / 10 = 0)%Z).
    { apply Z.div_small. lia. }
    rewrite Hq. reflexivity.
Qed.

(** C10, as the code has it. On a series of more than 8 points a
    tabular strategy whose regressor fits returns, for horizon 0, the
    empty forecast. The caller's horizon int(len * 0.2) is 0 exactly
    when the series has fewer than 5 points; on a series that short,
    and on any of at most 8 points, the tabular branch raises before
    its loop, whatever the horizon. *)
Theorem zero_horizon_forecast :
  (forall (data : list (timestamp * V)) model_choice seasonal_period model,
      tabular model_choice -> 8 < length data ->
      chosen_fit xgb_fit gbr_fit model_choice (matrix (future_X data))
        (future_y data) = Ok model ->
      forecast_future sarima_future xgb_fit gbr_fit data model_choice 0
        seasonal_period = Ok (Some (mkSeries [] [])))
  /\ (forall n : nat,
        Z.to_nat (py_int (inject_Z (Z.of_nat n) * (2 # 10))%Q) = 0
        <-> n < 5)
  /\ (forall (data : list (timestamp * V)) model_choice seasonal_period,
        tabular model_choice -> length data <= 8 ->
        raises (forecast_future_button sarima_future xgb_fit gbr_fit data
                  model_choice seasonal_period)
        /\ raises (forecast_future sarima_future xgb_fit gbr_fit data
                     model_choice 0 seasonal_period)).
Proof.
  split; [|split].
  - intros data model_choice seasonal_period model Htab Hlen Hfit.
    destruct (forecast_tabular_ok sarima_future xgb_fit gbr_fit data
                0 seasonal_period Htab Hlen Hfit)
      as [idx [_ [Hidx Hrun]]].
    rewrite Hrun. cbn [rollout].
    destruct idx; [reflexivity | discriminate].
  - apply caller_horizon_zero.
  - intros data model_choice seasonal_period Htab Hlen. split.
    + unfold forecast_future_button.
      now apply forecast_tabular_short.
    + now apply forecast_tabular_short.
Qed.

End FutureClaims.

(** ** The claims on concrete runs *)

Lemma constant_series_forecast_witness :
  exists s,
    forecast_future sample_sarima sample_fit sample_fit constant10
      "Gradient Boosting" 3 None = Ok (Some s)
    /\ s_values s = [7; 7; 7]%Z.
Proof.
  destruct (@constant_series_forecast Z sample_sarima sample_fit sample_fit
              constant10 7%Z "Gradient Boosting" 3 None persistence)
    as [s [Hs [Hv _]]].
  - simpl. lia.
  - simpl. intros p H.
    repeat (destruct H as [<- | H]; [reflexivity|]). destruct H.
  - right. reflexivity.
  - reflexivity.
  - reflexivity.
  - exists s. split; [exact Hs | exact Hv].
Defined.

Lemma unknown_strategy_returns_none_witness :
  forecast_future sample_sarima sample_fit sample_fit series10 "ARIMA" 2
    (Some 12) = Ok None.
Proof.
  apply (@unknown_strategy_returns_none Z sample_sarima sample_fit sample_fit
           series10 "ARIMA" 2 (Some 12)); discriminate.
Defined.

(** C7, as stated, fails: for the name "Prophet" the extrapolator
    returns None and raises no UnknownStrategy. *)
Lemma unknown_strategy_not_raised :
  forecast_future sample_sarima sample_fit sample_fit series10 "Prophet" 3
    None = Ok None
  /\ forecast_future sample_sarima sample_fit sample_fit series10 "Prophet" 3
       None <> Raise (PyError "UnknownStrategy")
  /\ ~ raises (forecast_future sample_sarima sample_fit sample_fit series10
                 "Prophet" 3 None).
Proof.
  split; [reflexivity|]. split; [discriminate|].
  intros [e He]. discriminate He.
Qed.

Lemma zero_horizon_forecast_witness :
  forecast_future sample_sarima sample_fit sample_fit series10 "XGBoost" 0
    None = Ok (Some (mkSeries [] []))
  /\ raises (forecast_future_button sample_sarima sample_fit sample_fit
               (firstn 4 series10) "XGBoost" None).
Proof.
  destruct (@zero_horizon_forecast Z sample_sarima sample_fit sample_fit)
    as [Hlong [_ Hshort]].
  split.
  - apply (Hlong series10 "XGBoost"%string None persistence).
    + left. reflexivity.
    + simpl. lia.
    + reflexivity.
  - apply (Hshort (firstn 4 series10) "XGBoost"%string None).
    + left. reflexivity.
    + simpl. lia.
Defined.

(** C10, as stated, fails: on a series of 3 points the tabular branch
    with horizon 0 raises instead of returning an empty forecast, and so
    does the caller, whose derived horizon is 0. *)
Lemma zero_horizon_short_series_raises :
  forecast_future sample_sarima sample_fit sample_fit (firstn 3 series10)
    "XGBoost" 0 None = Raise ValueError
  /\ Z.to_nat (py_int (inject_Z (Z.of_nat (length (firstn 3 series10)))
                       * (2 # 10))%Q) = 0
  /\ forecast_future_button sample_sarima sample_fit sample_fit
       (firstn 3 series10) "XGBoost" None = Raise ValueError
  /\ forecast_future (V := Z) sample_sarima
       (fun _ _ => Ok persistence) (fun _ _ => Ok persistence)
       (firstn 3 series10) "XGBoost" 0 None = Raise IndexError.
Proof.
  repeat split; reflexivity.
Qed.

(** C1 against the code. On the series 1..10 with the lag-1 regressor
    and horizon 2 the code returns [9; 8] where the recursion of the
    specification returns [10; 10]: the code seeds its window with the
    lag features of the last training row, which leave out the last
    known value, and its update drops the lag-1 entry and appends the
    prediction in the lag-8 position. *)
Theorem rollout_differs_from_reference :
  forecast_future sample_sarima sample_fit sample_fit series10 "XGBoost" 2
    None = Ok (Some (mkSeries [10; 11]%Z [9; 8]%Z))
  /\ reference_forecast persistence 8 (map snd series10) 2 = [10; 10]%Z
  /\ last_row_window (map snd series10) 8 = [9; 8; 7; 6; 5; 4; 3; 2]%Z
  /\ reference_seed 8 (map snd series10) = [10; 9; 8; 7; 6; 5; 4; 3]%Z
  /\ slice_from 1 [9; 8; 7; 6; 5; 4; 3; 2]%Z ++ [9%Z]
     = [8; 7; 6; 5; 4; 3; 2; 9]%Z.
Proof.
  repeat split; reflexivity.
Qed.

(** * Further properties of the code *)

(** ** The metric calculator *)

Section MetricExtras.

Local Open Scope R_scope.

Lemma residuals_self (y : list R) :
  residuals y y = map (fun _ => 0) y.
Proof.
  unfold residuals. induction y as [|a y IH]; simpl.
  - reflexivity.
  - rewrite IH. f_equal. lra.
Qed.

Lemma rsum_map_zero (A : Type) (f : A -> R) (l : list A) :
  (forall a, In a l -> f a = 0) -> rsum (map f l) = 0.
Proof.
  induction l as [|a l IH]; simpl; intros H.
  - reflexivity.
  - rewrite (H a) by now left. rewrite IH; [lra|].
    intros b Hb. apply H. now right.
Qed.

Lemma rmean_map_zero (A : Type) (f : A -> R) (l : list A) :
  (forall a, In a l -> f a = 0) -> rmean (map f l) = 0.
Proof.
  intros H. unfold rmean. rewrite rsum_map_zero by exact H.
  unfold Rdiv. apply Rmult_0_l.
Qed.

Lemma assemble_score_perfect (denominator : R) :
  assemble_score 0 denominator = 1.
Proof.
  unfold assemble_score. destruct (Req_dec_T 0 0); [reflexivity|].
  contradiction.
Qed.

(** X2. A prediction equal to the truth scores RMSE = 0, MAE = 0 and
    explained variance = 1; R2 = 1 from two samples on; and MAPE = 0
    when no truth value is zero. *)
Theorem perfect_prediction_metrics (y : list R) :
  (1 <= length y)%nat ->
  exists m,
    calculate_metrics y y = Ok m
    /\ RMSE m = Fin 0
    /\ MAE m = Fin 0
    /\ ExplainedVariance m = Fin 1
    /\ ((2 <= length y)%nat -> R2 m = Fin 1)
    /\ ((forall t, In t y -> t <> 0) -> MAPE m = Fin 0).
Proof.
  intros Hpos. exists (metrics_of y y).
  split; [now apply calculate_metrics_ok|].
  assert (Hsq : rmean (map sq (residuals y y)) = 0).
  { rewrite residuals_self, map_map. apply rmean_map_zero.
    intros; unfold sq; lra. }
  assert (Hssq : rsum (map sq (residuals y y)) = 0).
  { rewrite residuals_self, map_map. apply rsum_map_zero.
    intros; unfold sq; lra. }
  assert (Habs : rmean (map Rabs (residuals y y)) = 0).
  { rewrite residuals_self, map_map. apply rmean_map_zero.
    intros; apply Rabs_R0. }
  assert (Havg : rmean (residuals y y) = 0).
  { rewrite residuals_self. apply rmean_map_zero. reflexivity. }
  unfold metrics_of. cbn [RMSE MAE MAPE R2 ExplainedVariance].
  split; [now rewrite Hsq, sqrt_0|].
  split; [now rewrite Habs|].
  split.
  { rewrite Havg. f_equal.
    replace (rmean (map (fun d => sq (d - 0)) (residuals y y))) with 0.
    - apply assemble_score_perfect.
    - symmetry. rewrite residuals_self, map_map. apply rmean_map_zero.
      intros; unfold sq; lra. }
  split.
  { intros H2.
    assert (E : (length y <? 2)%nat = false) by (apply Nat.ltb_ge; lia).
    rewrite E, Hssq. f_equal. apply assemble_score_perfect. }
  intros Hnz.
  rewrite abs_pct_errors_nonzero by exact Hnz.
  rewrite pd_mean_fin.
  - cbn [fscale]. f_equal. unfold pct_errors.
    rewrite rmean_map_zero; [lra|].
    intros [t p] Hin. cbn [fst snd].
    assert (t = p).
    { clear - Hin. induction y as [|a y IH]; simpl in Hin; [contradiction|].
      destruct Hin as [E | Hin]; [now injection E as <- <- | auto]. }
    subst p. replace (t - t) with 0 by lra.
    rewrite Rabs_R0. unfold Rdiv. apply Rmult_0_l.
  - unfold pct_errors. intros E. apply map_eq_nil in E.
    revert E. now apply combine_nonempty.
Qed.

Lemma perfect_prediction_metrics_witness :
  exists m,
    calculate_metrics [1; 2; 3] [1; 2; 3] = Ok m
    /\ RMSE m = Fin 0 /\ MAE m = Fin 0
    /\ R2 m = Fin 1 /\ ExplainedVariance m = Fin 1.
Proof.
  destruct (perfect_prediction_metrics [1; 2; 3])
    as [m [Hm [Hrmse [Hmae [Hev [Hr2 _]]]]]].
  - simpl. lia.
  - exists m. repeat split; try assumption. apply Hr2. simpl. lia.
Defined.

End MetricExtras.

Section MetricOrder.

Local Open Scope R_scope.

(** Percentage errors are finite and non-negative, infinite or NaN;
    never minus infinity. *)
Lemma abs_pct_error_cases (x y : R) :
  (exists r, fabs (fdiv x y) = Fin r)
  \/ fabs (fdiv x y) = PInf \/ fabs (fdiv x y) = NaN.
Proof.
  unfold fdiv. destruct (Req_dec_T y 0).
  - destruct (Req_dec_T x 0); [now right; right|].
    right; left. destruct (Rlt_dec 0 x); reflexivity.
  - left. eexists. reflexivity.
Qed.

Lemma fold_fadd_pinf (l : list pyfloat) :
  (forall a, In a l -> (exists r, a = Fin r) \/ a = PInf) ->
  (exists r, fold_right fadd (Fin 0) l = Fin r)
  \/ fold_right fadd (Fin 0) l = PInf.
Proof.
  induction l as [|a l IH]; intros H.
  - left. now exists 0.
  - cbn [fold_right].
    destruct IH as [[r ->] | ->]; [intros b Hb; apply H; now right | |];
      (destruct (H a) as [[x ->] | ->]; [now left | |]);
      cbn [fadd]; eauto.
Qed.

Lemma fold_fadd_has_pinf (l : list pyfloat) :
  (forall a, In a l -> (exists r, a = Fin r) \/ a = PInf) ->
  In PInf l -> fold_right fadd (Fin 0) l = PInf.
Proof.
  induction l as [|a l IH]; intros H Hin; [contradiction|].
  cbn [fold_right].
  assert (Hl : forall b, In b l -> (exists r, b = Fin r) \/ b = PInf)
    by (intros b Hb; apply H; now right).
  destruct Hin as [-> | Hin].
  - destruct (fold_fadd_pinf l Hl) as [[r ->] | ->]; reflexivity.
  - rewrite (IH Hl Hin).
    destruct (H a) as [[x ->] | ->]; [now left | |]; reflexivity.
Qed.

(** X3. When a truth value is exactly 0 and the prediction there is
    not, the percentage error at that position is infinite and so is the
    returned MAPE. *)
Theorem mape_zero_truth_infinite (truth predicted : list R) (p : R) :
  length truth = length predicted ->
  In (0, p) (combine truth predicted) -> p <> 0 ->
  exists m,
    calculate_metrics truth predicted = Ok m /\ MAPE m = PInf.
Proof.
  intros Hlen Hin Hp. exists (metrics_of truth predicted).
  split.
  { apply calculate_metrics_ok; [exact Hlen|].
    destruct truth; [contradiction | simpl; lia]. }
  unfold metrics_of. cbn [MAPE]. unfold pd_mean.
  set (xs := filter (fun a => negb (isnan a))
                    (abs_pct_errors truth predicted)).
  assert (Hxs : forall a, In a xs -> (exists r, a = Fin r) \/ a = PInf).
  { intros a Ha. unfold xs in Ha. apply filter_In in Ha.
    destruct Ha as [Ha Hnan]. unfold abs_pct_errors in Ha.
    apply in_map_iff in Ha. destruct Ha as [[t q] [<- _]].
    destruct (abs_pct_error_cases (fst (t, q) - snd (t, q)) (fst (t, q)))
      as [Hf | [Hf | Hf]]; auto.
    rewrite Hf in Hnan. discriminate. }
  assert (Hinf : In PInf xs).
  { unfold xs. apply filter_In. split; [|reflexivity].
    unfold abs_pct_errors. apply in_map_iff. exists (0, p).
    split; [|exact Hin]. cbn [fst snd]. unfold fdiv.
    destruct (Req_dec_T 0 0) as [_|n]; [|contradiction].
    destruct (Req_dec_T (0 - p) 0); [lra|].
    destruct (Rlt_dec 0 (0 - p)); reflexivity. }
  destruct xs as [|a xs']; [contradiction|].
  rewrite (fold_fadd_has_pinf _ Hxs Hinf). reflexivity.
Qed.

Lemma mape_zero_truth_infinite_witness :
  exists m, calculate_metrics [2; 0] [1; 3] = Ok m /\ MAPE m = PInf.
Proof.
  apply (@mape_zero_truth_infinite [2; 0] [1; 3] 3).
  - reflexivity.
  - simpl. right. left. reflexivity.
  - lra.
Defined.

End MetricOrder.


(** ** The tabular pipelines, in closed form *)

Section SliceFacts.

Variable A : Type.

Lemma slice_to_from_app (i : Z) (l : list A) :
  slice_to i l ++ slice_from i l = l.
Proof. unfold slice_to, slice_from. apply firstn_skipn. Qed.

Lemma map_add_seq (B : Type) (f : nat -> B) (a c : nat) :
  map (fun r => f (a + r)) (seq 0 c) = map f (seq a c).
Proof.
  revert a. induction c as [|c IH]; intros a; [reflexivity|].
  cbn [seq map]. rewrite Nat.add_0_r. f_equal.
  rewrite <- seq_shift, map_map.
  rewrite <- (IH (S a)). apply map_ext. intros r. f_equal. lia.
Qed.

End SliceFacts.

Section LagFrameFacts.

Variables T V : Type.
Implicit Types (vals : list V) (I : list T).

Lemma length_lag_column vals k j :
  length (lag_column vals k j) = length vals - k.
Proof.
  unfold lag_column. rewrite length_firstn, length_skipn. lia.
Qed.

Lemma map_snd_lag_columns (C D : Type) (h : list C -> list D) col
  (f : nat -> list C) m :
  map (fun nc => (fst nc, h (snd nc))) (lag_columns col f m)
  = lag_columns col (fun j => h (f j)) m.
Proof. unfold lag_columns. rewrite map_map. reflexivity. Qed.

(** A frame of the target column and the lag columns. *)
Lemma drop_target_columns I (tc : list V) (g : nat -> list V) k :
  drop_column (mkFrame I (("target"%string, tc) :: lag_columns "target" g k))
              "target"
  = Ok (mkFrame I (lag_columns "target" g k)).
Proof.
  unfold drop_column. cbn [columns index assoc_get filter fst].
  rewrite String.eqb_refl. cbn [negb].
  now rewrite filter_not_col_lag_columns.
Qed.

Lemma getseries_target_columns I (tc : list V) (g : nat -> list V) k :
  getseries (mkFrame I (("target"%string, tc) :: lag_columns "target" g k))
            "target"
  = Ok (mkSeries I tc).
Proof.
  unfold getseries, getitem. cbn [columns index assoc_get].
  now rewrite String.eqb_refl.
Qed.

Lemma row_values_lag_columns I (g : nat -> list V) k r :
  row_values (mkFrame I (lag_columns "target" g k)) r
  = flat_map (fun j => match nth_error (g j) r with
                       | Some x => [x]
                       | None => []
                       end) (seq 1 k).
Proof.
  unfold row_values, lag_columns. cbn [columns].
  induction (seq 1 k) as [|j l IH]; [reflexivity|].
  cbn [map flat_map snd]. now rewrite IH.
Qed.

Lemma flat_map_ext_in (A B : Type) (f g : A -> list B) (l : list A) :
  (forall a, In a l -> f a = g a) -> flat_map f l = flat_map g l.
Proof.
  induction l as [|a l IH]; intros H; [reflexivity|].
  cbn [flat_map]. rewrite (H a) by now left.
  f_equal. apply IH. intros b Hb. apply H. now right.
Qed.

(** The rows of sliced lag columns are the windows of the positions
    they are aligned to. *)
Lemma matrix_lag_columns I vals k (h : list V -> list V) (first : nat) :
  (forall j r, 1 <= j <= k -> r < length I ->
     nth_error (h (lag_column vals k j)) r = nth_error vals (first + r - j)) ->
  matrix (mkFrame I (lag_columns "target"
                       (fun j => h (lag_column vals k j)) k))
  = windows vals k first (length I).
Proof.
  intros H. unfold matrix, height, windows. cbn [index].
  rewrite <- (map_add_seq (window_at vals k) first (length I)).
  apply map_ext_in. intros r Hr.
  apply in_seq in Hr. rewrite row_values_lag_columns.
  unfold window_at. apply flat_map_ext_in. intros j Hj.
  apply in_seq in Hj. rewrite H by lia. reflexivity.
Qed.

Lemma iloc_to_lag_frame (data : list (T * V)) k (i : Z) :
  let b := slice_bound (length data - k) i in
  iloc_to i (lag_frame data k)
  = mkFrame (firstn b (skipn k (map fst data)))
      (("target"%string, firstn b (skipn k (map snd data)))
         :: lag_columns "target"
              (fun j => firstn b (lag_column (map snd data) k j)) k).
Proof.
  intros b. unfold iloc_to, lag_frame. cbn [index columns map fst snd].
  unfold slice_to. rewrite !length_skipn, !length_map. fold b.
  f_equal. f_equal. unfold lag_columns. rewrite map_map.
  apply map_ext. intros j. cbn [fst snd].
  now rewrite length_lag_column, length_map.
Qed.

Lemma iloc_from_lag_frame (data : list (T * V)) k (i : Z) :
  let b := slice_bound (length data - k) i in
  iloc_from i (lag_frame data k)
  = mkFrame (skipn b (skipn k (map fst data)))
      (("target"%string, skipn b (skipn k (map snd data)))
         :: lag_columns "target"
              (fun j => skipn b (lag_column (map snd data) k j)) k).
Proof.
  intros b. unfold iloc_from, lag_frame. cbn [index columns map fst snd].
  unfold slice_from. rewrite !length_skipn, !length_map. fold b.
  f_equal. f_equal. unfold lag_columns. rewrite map_map.
  apply map_ext. intros j. cbn [fst snd].
  now rewrite length_lag_column, length_map.
Qed.

Lemma matrix_train_rows (data : list (T * V)) k b :
  b <= length data - k ->
  matrix (mkFrame (firstn b (skipn k (map fst data)))
            (lag_columns "target"
               (fun j => firstn b (lag_column (map snd data) k j)) k))
  = windows (map snd data) k k b.
Proof.
  intros Hb.
  assert (Hl : length (firstn b (skipn k (map fst data))) = b).
  { rewrite length_firstn, length_skipn, length_map. lia. }
  rewrite <- Hl at 2.
  apply (@matrix_lag_columns _ (map snd data) k (firstn b) k).
  intros j r Hj Hr. rewrite Hl in Hr.
  rewrite nth_error_firstn.
  assert (E : (r <? b) = true) by (apply Nat.ltb_lt; lia).
  rewrite E.
  replace r with ((k + r) - k) at 1 by lia.
  apply nth_error_lag_column; rewrite ?length_map; lia.
Qed.

Lemma matrix_test_rows (data : list (T * V)) k b :
  b <= length data - k ->
  matrix (mkFrame (skipn b (skipn k (map fst data)))
            (lag_columns "target"
               (fun j => skipn b (lag_column (map snd data) k j)) k))
  = windows (map snd data) k (k + b) (length data - k - b).
Proof.
  intros Hb.
  assert (Hl : length (skipn b (skipn k (map fst data)))
               = length data - k - b).
  { rewrite !length_skipn, length_map. lia. }
  rewrite <- Hl.
  apply (@matrix_lag_columns _ (map snd data) k (skipn b) (k + b)).
  intros j r Hj Hr. rewrite Hl in Hr.
  rewrite nth_error_skipn.
  replace (b + r) with ((k + b + r) - k) by lia.
  apply nth_error_lag_column; rewrite ?length_map; lia.
Qed.

End LagFrameFacts.

Section PipelineFacts.

Variable T : Type.

Lemma xgb_prepare_cut (F : Type) (PF : PyFloat F) (data : list (T * R))
  (k : nat) (f : F) (cut : Z) :
  train_size_of (length data - k) f = Ok cut ->
  XGBoost.prepare data k f
  = Ok (mkFrame (firstn (slice_bound (length data - k) cut)
                   (skipn k (map fst data)))
          (lag_columns "target"
             (fun j => firstn (slice_bound (length data - k) cut)
                         (lag_column (map snd data) k j)) k),
        mkSeries (firstn (slice_bound (length data - k) cut)
                    (skipn k (map fst data)))
                 (firstn (slice_bound (length data - k) cut)
                    (skipn k (map snd data))),
        mkFrame (skipn (slice_bound (length data - k) cut)
                   (skipn k (map fst data)))
          (lag_columns "target"
             (fun j => skipn (slice_bound (length data - k) cut)
                         (lag_column (map snd data) k j)) k),
        mkSeries (skipn (slice_bound (length data - k) cut)
                    (skipn k (map fst data)))
                 (skipn (slice_bound (length data - k) cut)
                    (skipn k (map snd data)))).
Proof.
  intros Hcut.
  unfold XGBoost.prepare. rewrite xgb_lag_table_frame. cbn [bind].
  rewrite height_lag_frame, Hcut. cbn [bind].
  rewrite iloc_to_lag_frame, iloc_from_lag_frame. cbv zeta.
  rewrite !drop_target_columns, !getseries_target_columns.
  reflexivity.
Qed.

Lemma xgb_prepare_raise (F : Type) (PF : PyFloat F) (data : list (T * R))
  (k : nat) (f : F) (e : exn) :
  train_size_of (length data - k) f = Raise e ->
  XGBoost.prepare data k f = Raise e.
Proof.
  intros Hcut.
  unfold XGBoost.prepare. rewrite xgb_lag_table_frame. cbn [bind].
  now rewrite height_lag_frame, Hcut.
Qed.

Lemma xgb_prepare_closed (data : list (T * R)) (k : nat) (f : Q) :
  XGBoost.prepare data k f
  = Ok (mkFrame (firstn (train_rows (length data - k) f)
                   (skipn k (map fst data)))
          (lag_columns "target"
             (fun j => firstn (train_rows (length data - k) f)
                         (lag_column (map snd data) k j)) k),
        mkSeries (firstn (train_rows (length data - k) f)
                    (skipn k (map fst data)))
                 (firstn (train_rows (length data - k) f)
                    (skipn k (map snd data))),
        mkFrame (skipn (train_rows (length data - k) f)
                   (skipn k (map fst data)))
          (lag_columns "target"
             (fun j => skipn (train_rows (length data - k) f)
                         (lag_column (map snd data) k j)) k),
        mkSeries (skipn (train_rows (length data - k) f)
                    (skipn k (map fst data)))
                 (skipn (train_rows (length data - k) f)
                    (skipn k (map snd data)))).
Proof.
  apply (xgb_prepare_cut exact_float data k f). reflexivity.
Qed.

Lemma gbr_prepare_eq (F : Type) (PF : PyFloat F) (data : list (T * R))
  (k : nat) (f : F) :
  GradientBoosting.prepare data k f = XGBoost.prepare data k f.
Proof.
  unfold GradientBoosting.prepare, XGBoost.prepare.
  now rewrite gbr_lag_table_eq.
Qed.

Lemma train_rows_le (rows : nat) (f : Q) : train_rows rows f <= rows.
Proof. apply slice_bound_le. Qed.

Lemma windows_app (V : Type) (vals : list V) k first a b :
  windows vals k first a ++ windows vals k (first + a) b
  = windows vals k first (a + b).
Proof. unfold windows. now rewrite seq_app, map_app. Qed.

Lemma windows_length (V : Type) (vals : list V) k first count :
  length (windows vals k first count) = count.
Proof. unfold windows. now rewrite length_map, length_seq. Qed.

Lemma prepared_parts_partition (data : list (T * R)) (k b : nat) :
  b <= length data - k ->
  firstn b (skipn k (map snd data)) ++ skipn b (skipn k (map snd data))
  = skipn k (map snd data)
  /\ firstn b (skipn k (map fst data)) ++ skipn b (skipn k (map fst data))
     = skipn k (map fst data)
  /\ matrix (mkFrame (firstn b (skipn k (map fst data)))
               (lag_columns "target"
                  (fun j => firstn b (lag_column (map snd data) k j)) k))
     ++ matrix (mkFrame (skipn b (skipn k (map fst data)))
                  (lag_columns "target"
                     (fun j => skipn b (lag_column (map snd data) k j)) k))
     = windows (map snd data) k k (length data - k)
  /\ length (matrix (mkFrame (firstn b (skipn k (map fst data)))
               (lag_columns "target"
                  (fun j => firstn b (lag_column (map snd data) k j)) k)))
     = length (firstn b (skipn k (map snd data)))
  /\ length (matrix (mkFrame (skipn b (skipn k (map fst data)))
               (lag_columns "target"
                  (fun j => skipn b (lag_column (map snd data) k j)) k)))
     = length (skipn b (skipn k (map snd data))).
Proof.
  intros Hb.
  rewrite matrix_train_rows, matrix_test_rows by exact Hb.
  split; [apply firstn_skipn|]. split; [apply firstn_skipn|].
  split.
  { rewrite windows_app. f_equal. lia. }
  rewrite !windows_length, length_firstn, !length_skipn, !length_map.
  split; lia.
Qed.

(** X6. Whatever the test fraction, both tabular pipelines prepare
    their data without raising, and the train and test parts partition
    the lag table in time order: targets and timestamps concatenate to
    the series from position k on, and the feature rows to the windows
    of those positions, each window holding the k values before its
    target. The same partition holds in every float arithmetic, the
    doubles of the program included, whenever the preparation returns,
    and in doubles it returns whenever the scaled row count is
    finite. *)
Theorem prepare_partitions_lag_table (data : list (T * R)) (k : nat)
  (f : Q) :
  (exists X_train y_train X_test y_test,
    XGBoost.prepare data k f = Ok (X_train, y_train, X_test, y_test)
    /\ GradientBoosting.prepare data k f
       = Ok (X_train, y_train, X_test, y_test)
    /\ s_values y_train ++ s_values y_test = skipn k (map snd data)
    /\ s_index y_train ++ s_index y_test = skipn k (map fst data)
    /\ matrix X_train ++ matrix X_test
       = windows (map snd data) k k (length data - k)
    /\ length (matrix X_train) = length (s_values y_train)
    /\ length (matrix X_test) = length (s_values y_test)
    /\ index X_train = s_index y_train
    /\ index X_test = s_index y_test)
  /\ (forall (F : Type) (PF : PyFloat F) (g : F)
             X_train y_train X_test y_test,
        XGBoost.prepare data k g = Ok (X_train, y_train, X_test, y_test) ->
        GradientBoosting.prepare data k g
        = Ok (X_train, y_train, X_test, y_test)
        /\ s_values y_train ++ s_values y_test = skipn k (map snd data)
        /\ s_index y_train ++ s_index y_test = skipn k (map fst data)
        /\ matrix X_train ++ matrix X_test
           = windows (map snd data) k k (length data - k)
        /\ length (matrix X_train) = length (s_values y_train)
        /\ length (matrix X_test) = length (s_values y_test)
        /\ index X_train = s_index y_train
        /\ index X_test = s_index y_test)
  /\ (forall g : double,
        double_finite (scaled_length (length data - k) g) = true ->
        exists X_train y_train X_test y_test,
          XGBoost.prepare data k g = Ok (X_train, y_train, X_test, y_test)).
Proof.
  split; [|split].
  - pose proof (train_rows_le (length data - k) f) as Hb.
    destruct (prepared_parts_partition data k Hb)
      as [Hv [Hi [Hm [Hl1 Hl2]]]].
    do 4 eexists.
    split; [apply xgb_prepare_closed|].
    split; [rewrite gbr_prepare_eq; apply xgb_prepare_closed|].
    cbn [s_values s_index index].
    repeat split; assumption.
  - intros F PF g X_train y_train X_test y_test Hrun.
    rewrite (gbr_prepare_eq _ data k g).
    destruct (train_size_of (length data - k) g) as [cut|e] eqn:Hcut.
    + rewrite (xgb_prepare_cut _ data k g Hcut) in Hrun |- *.
      apply Ok_inj in Hrun.
      pose proof (slice_bound_le (length data - k) cut) as Hb.
      destruct (prepared_parts_partition data k Hb)
        as [Hv [Hi [Hm [Hl1 Hl2]]]].
      injection Hrun as <- <- <- <-.
      cbn [s_values s_index index].
      repeat split; assumption.
    + rewrite (xgb_prepare_raise _ data k g Hcut) in Hrun. discriminate.
  - intros g Hfin.
    destruct (int_of_double_finite _ Hfin) as [cut Hcut].
    do 4 eexists.
    apply (xgb_prepare_cut double_float data k g (cut := cut)).
    exact Hcut.
Qed.

Lemma calculate_metrics_empty (predictions : list R) :
  calculate_metrics [] predictions = Raise ValueError.
Proof.
  unfold calculate_metrics, mean_squared_error, check_targets.
  destruct predictions; reflexivity.
Qed.

Lemma exact_train_size_nonpos_fraction (n : nat) (f : Q) :
  (f <= 0)%Q -> (Z.of_nat n <= exact_train_size n f)%Z.
Proof.
  intros Hf. unfold exact_train_size.
  assert (Hn : (inject_Z (Z.of_nat n)
                <= inject_Z (Z.of_nat n) * (1 - f))%Q).
  { rewrite <- (Qmult_1_r (inject_Z (Z.of_nat n))) at 1.
    rewrite !(Qmult_comm (inject_Z (Z.of_nat n))).
    apply Qmult_le_compat_r; [|unfold Qle; simpl; lia].
    apply Qplus_le_l with (z := f). ring_simplify.
    apply Qplus_le_l with (z := (-1)%Q). ring_simplify. exact Hf. }
  assert (H0 : (0 <= inject_Z (Z.of_nat n) * (1 - f))%Q).
  { eapply Qle_trans; [|exact Hn]. unfold Qle. simpl. lia. }
  rewrite py_int_nonneg by exact H0.
  rewrite <- (Qfloor_Z (Z.of_nat n)) at 1. now apply Qfloor_resp_le.
Qed.

Lemma train_rows_all (n : nat) (f : Q) :
  (f <= 0)%Q -> train_rows n f = n.
Proof.
  intros Hf. pose proof (exact_train_size_nonpos_fraction n Hf) as H.
  unfold train_rows, slice_bound.
  destruct (exact_train_size n f <? 0)%Z eqn:E.
  - apply Z.ltb_lt in E. lia.
  - apply Nat.min_l. lia.
Qed.

Lemma forecasts_raise_without_test_rows (F : Type) (PF : PyFloat F)
  (xgb_fit : list (list R) -> list R -> list (list (list R) * list R) ->
             py_result (list R -> R))
  (gbr_fit : list (list R) -> list R -> py_result (list R -> R))
  (data : list (T * R)) (k : nat) (g : F) :
  (forall cut, train_size_of (length data - k) g = Ok cut ->
     slice_bound (length data - k) cut = length data - k) ->
  raises (XGBoost.xgboost_forecast xgb_fit data k g)
  /\ raises (GradientBoosting.gradient_boosting_forecast gbr_fit data k g).
Proof.
  intros Hall.
  destruct (train_size_of (length data - k) g) as [cut|e] eqn:Hcut.
  - assert (Hy : skipn (slice_bound (length data - k) cut)
                   (skipn k (map snd data)) = []).
    { apply skipn_all2.
      rewrite (Hall cut eq_refl), length_skipn, length_map. lia. }
    split.
    + unfold XGBoost.xgboost_forecast.
      rewrite (xgb_prepare_cut _ data k g Hcut). cbn [bind s_values].
      rewrite Hy.
      destruct (xgb_fit _ _ _) as [reg|e]; cbn [bind].
      * rewrite calculate_metrics_empty. now exists ValueError.
      * now exists e.
    + unfold GradientBoosting.gradient_boosting_forecast.
      rewrite (gbr_prepare_eq _ data k g),
        (xgb_prepare_cut _ data k g Hcut).
      cbn [bind s_values]. rewrite Hy.
      destruct (gbr_fit _ _) as [reg|e]; cbn [bind].
      * rewrite calculate_metrics_empty. now exists ValueError.
      * now exists e.
  - split.
    + unfold XGBoost.xgboost_forecast.
      rewrite (xgb_prepare_raise _ data k g Hcut). cbn [bind].
      now exists e.
    + unfold GradientBoosting.gradient_boosting_forecast.
      rewrite (gbr_prepare_eq _ data k g),
        (xgb_prepare_raise _ data k g Hcut). cbn [bind].
      now exists e.
Qed.

(** X7. With no more points than lags, or with a test size that is
    not positive, the test part is empty and both tabular pipelines
    raise, whatever the regressor does. With no more points than lags
    they raise in every float arithmetic, the doubles of the program
    included. *)
Theorem tabular_forecast_raises_without_test_rows
  (xgb_fit : list (list R) -> list R -> list (list (list R) * list R) ->
             py_result (list R -> R))
  (gbr_fit : list (list R) -> list R -> py_result (list R -> R))
  (data : list (T * R)) (k : nat) (f : Q) :
  (length data <= k \/ (f <= 0)%Q ->
   raises (XGBoost.xgboost_forecast xgb_fit data k f)
   /\ raises (GradientBoosting.gradient_boosting_forecast gbr_fit data k f))
  /\ (forall (F : Type) (PF : PyFloat F) (g : F),
        length data <= k ->
        raises (XGBoost.xgboost_forecast xgb_fit data k g)
        /\ raises (GradientBoosting.gradient_boosting_forecast gbr_fit
                     data k g)).
Proof.
  split.
  - intros H. apply forecasts_raise_without_test_rows.
    intros cut Hcut. apply Ok_inj in Hcut. subst cut.
    destruct H as [H | H].
    + pose proof (slice_bound_le (length data - k)
                    (py_int (scaled_length (length data - k) f))). lia.
    + change (train_rows (length data - k) f = length data - k).
      now apply train_rows_all.
  - intros F PF g H. apply forecasts_raise_without_test_rows.
    intros cut _.
    pose proof (slice_bound_le (length data - k) cut). lia.
Qed.

End PipelineFacts.

Lemma prepare_partitions_lag_table_witness :
  double_finite
    (scaled_length (length (ramp 52) - 2) (slider_test_size 34 : double))
  = true
  /\ exists X_train y_train X_test y_test,
       XGBoost.prepare (ramp 52) 2 (slider_test_size 34 : double)
       = Ok (X_train, y_train, X_test, y_test)
       /\ GradientBoosting.prepare (ramp 52) 2 (slider_test_size 34 : double)
          = Ok (X_train, y_train, X_test, y_test)
       /\ s_values y_train ++ s_values y_test
          = skipn 2 (map snd (ramp 52)).
Proof.
  destruct (prepare_partitions_lag_table (ramp 52) 2 (34 # 100)%Q)
    as [_ [Hany Hfinite]].
  assert (Hf : double_finite
                 (scaled_length (length (ramp 52) - 2)
                    (slider_test_size 34 : double)) = true)
    by (vm_compute; reflexivity).
  split; [exact Hf|].
  destruct (Hfinite (slider_test_size 34) Hf)
    as [X_train [y_train [X_test [y_test Hrun]]]].
  exists X_train, y_train, X_test, y_test.
  split; [exact Hrun|].
  destruct (Hany double double_float (slider_test_size 34)
              X_train y_train X_test y_test Hrun) as [Hgbr [Hvalues _]].
  split; assumption.
Defined.

Lemma tabular_forecast_raises_witness :
  raises (XGBoost.xgboost_forecast
            (fun _ _ _ => Ok (fun _ : list R => 0%R))
            [(0%Z, 1%R); (1%Z, 2%R)] 8 (2 # 10)%Q)
  /\ raises (GradientBoosting.gradient_boosting_forecast
               (fun _ _ => Ok (fun _ : list R => 0%R))
               [(0%Z, 1%R); (1%Z, 2%R)] 8 (slider_test_size 20 : double)).
Proof.
  destruct (tabular_forecast_raises_without_test_rows
              (fun _ _ _ => Ok (fun _ : list R => 0%R))
              (fun _ _ => Ok (fun _ : list R => 0%R))
              [(0%Z, 1%R); (1%Z, 2%R)] 8 (2 # 10)%Q) as [Hexact Hany].
  split.
  - apply Hexact. left. simpl. lia.
  - apply (Hany double double_float (slider_test_size 20)). simpl. lia.
Defined.

Section PipelineSuccess.

Variable T : Type.

Lemma skipn_skipn_add (A : Type) (l : list A) (b k : nat) :
  skipn b (skipn k l) = skipn (k + b) l.
Proof. rewrite skipn_skipn. f_equal. lia. Qed.

(** X8. In the float arithmetic of the program, or any other: when
    int() returns the split index, the split leaves at least one test
    row and the regressor fits the training windows to a model, the
    gradient boosting forecast succeeds: the held-out truth is the
    series from position k + b on (b the split index as a slice bound,
    the number of training rows), each prediction is the model applied
    to the k values before its target, and the metrics compare the two.
    The regressor is fitted on the windows and targets of the positions
    k to k + b - 1 only. *)
Theorem gradient_boosting_forecast_result (F : Type) (PF : PyFloat F)
  (fit : list (list R) -> list R -> py_result (list R -> R))
  (data : list (T * R)) (k : nat) (f : F) (cut : Z) (reg : list R -> R) :
  train_size_of (length data - k) f = Ok cut ->
  let vals := map snd data in
  let b := slice_bound (length data - k) cut in
  b < length data - k ->
  fit (windows vals k k b) (firstn b (skipn k vals)) = Ok reg ->
  let truth := skipn (k + b) vals in
  let predictions :=
    map reg (windows vals k (k + b) (length data - k - b)) in
  GradientBoosting.gradient_boosting_forecast fit data k f
  = Ok (metrics_of truth predictions, predictions,
        mkSeries (skipn (k + b) (map fst data)) truth)
  /\ length predictions = length truth
  /\ 1 <= length predictions.
Proof.
  intros Hcut vals b Hb Hfit truth predictions.
  assert (Hle : b <= length data - k) by lia.
  assert (Hlt : length truth = length data - k - b).
  { unfold truth, vals. rewrite length_skipn, length_map. lia. }
  assert (Hlp : length predictions = length data - k - b).
  { unfold predictions. now rewrite length_map, windows_length. }
  split; [|split; lia].
  subst truth predictions vals b.
  unfold GradientBoosting.gradient_boosting_forecast.
  rewrite (gbr_prepare_eq _ data k f), (xgb_prepare_cut _ data k f Hcut).
  cbn [bind s_values].
  rewrite (matrix_train_rows data k Hle), Hfit. cbn [bind].
  rewrite (matrix_test_rows data k Hle).
  unfold predict. rewrite !skipn_skipn_add.
  rewrite calculate_metrics_ok by lia.
  reflexivity.
Qed.

(** X9. The XGBoost forecast, under the same condition, returns the
    same truth and window-by-window predictions; its regressor is
    fitted on the training windows and is also handed the training and
    the test windows with their targets as evaluation sets. *)
Theorem xgboost_forecast_result (F : Type) (PF : PyFloat F)
  (fit : list (list R) -> list R -> list (list (list R) * list R) ->
         py_result (list R -> R))
  (data : list (T * R)) (k : nat) (f : F) (cut : Z) (reg : list R -> R) :
  train_size_of (length data - k) f = Ok cut ->
  let vals := map snd data in
  let b := slice_bound (length data - k) cut in
  b < length data - k ->
  fit (windows vals k k b) (firstn b (skipn k vals))
      [(windows vals k k b, firstn b (skipn k vals));
       (windows vals k (k + b) (length data - k - b), skipn (k + b) vals)]
  = Ok reg ->
  let truth := skipn (k + b) vals in
  let predictions :=
    map reg (windows vals k (k + b) (length data - k - b)) in
  XGBoost.xgboost_forecast fit data k f
  = Ok (metrics_of truth predictions, predictions,
        mkSeries (skipn (k + b) (map fst data)) truth)
  /\ length predictions = length truth
  /\ 1 <= length predictions.
Proof.
  intros Hcut vals b Hb Hfit truth predictions.
  assert (Hle : b <= length data - k) by lia.
  assert (Hlt : length truth = length data - k - b).
  { unfold truth, vals. rewrite length_skipn, length_map. lia. }
  assert (Hlp : length predictions = length data - k - b).
  { unfold predictions. now rewrite length_map, windows_length. }
  split; [|split; lia].
  subst truth predictions vals b.
  unfold XGBoost.xgboost_forecast.
  rewrite (xgb_prepare_cut _ data k f Hcut).
  cbn [bind s_values].
  rewrite (matrix_train_rows data k Hle), (matrix_test_rows data k Hle).
  rewrite !skipn_skipn_add, Hfit. cbn [bind].
  unfold predict.
  rewrite calculate_metrics_ok by lia.
  reflexivity.
Qed.

End PipelineSuccess.

Lemma gradient_boosting_forecast_result_witness :
  exists m p,
    GradientBoosting.gradient_boosting_forecast
      (fun _ _ => Ok persistence_R) (ramp 52) 2
      (slider_test_size 34 : double)
    = Ok (m, p,
          mkSeries (skipn 34 (map fst (ramp 52)))
                   (skipn 34 (map snd (ramp 52))))
    /\ length p = 18.
Proof.
  destruct (@gradient_boosting_forecast_result Z double double_float
              (fun _ _ => Ok persistence_R) (ramp 52) 2
              (slider_test_size 34) 32%Z persistence_R)
    as [Hrun [Hlen Hpos]].
  - vm_compute. reflexivity.
  - cbv. lia.
  - reflexivity.
  - do 2 eexists. split; [exact Hrun|]. reflexivity.
Defined.

Lemma xgboost_forecast_result_witness :
  exists m p,
    XGBoost.xgboost_forecast
      (fun _ _ _ => Ok persistence_R) (ramp 52) 2
      (slider_test_size 34 : double)
    = Ok (m, p,
          mkSeries (skipn 34 (map fst (ramp 52)))
                   (skipn 34 (map snd (ramp 52))))
    /\ length p = 18.
Proof.
  destruct (@xgboost_forecast_result Z double double_float
              (fun _ _ _ => Ok persistence_R) (ramp 52) 2
              (slider_test_size 34) 32%Z persistence_R)
    as [Hrun [Hlen Hpos]].
  - vm_compute. reflexivity.
  - cbv. lia.
  - reflexivity.
  - do 2 eexists. split; [exact Hrun|]. reflexivity.
Defined.

(** ** The slider's test sizes *)

Lemma exact_train_size_slider (n : nat) (percent : Z) :
  exact_train_size n (slider_test_size percent)
  = Z.quot (Z.of_nat n * (100 - percent)) 100.
Proof.
  unfold exact_train_size, slider_test_size, py_int.
  cbn [float_div float_of_int exact_float Qdiv Qinv Qmult Qminus Qplus
       Qopp Qnum Qden inject_Z].
  change (Z.pos (1 * (1 * (1 * 100)))) with 100%Z.
  change (Z.pos (1 * 100)) with 100%Z.
  f_equal. ring.
Qed.

Lemma train_rows_slider (n : nat) (percent : Z) :
  (10 <= percent <= 50)%Z -> 2 <= n ->
  1 <= train_rows n (slider_test_size percent) < n
  /\ n <= 2 * train_rows n (slider_test_size percent) + 1.
Proof.
  intros Hp Hn. unfold train_rows. rewrite exact_train_size_slider.
  rewrite Z.quot_div_nonneg by nia.
  assert (Hlo : (Z.of_nat n * 50 / 100
                 <= Z.of_nat n * (100 - percent) / 100)%Z).
  { apply Z.div_le_mono; nia. }
  assert (Hhi : (Z.of_nat n * (100 - percent) / 100
                 <= Z.of_nat n * 90 / 100)%Z).
  { apply Z.div_le_mono; nia. }
  set (q := (Z.of_nat n * (100 - percent) / 100)%Z) in *.
  assert (H50 : (Z.of_nat n - 1 <= 2 * (Z.of_nat n * 50 / 100))%Z).
  { pose proof (Z.div_mod (Z.of_nat n * 50) 100).
    pose proof (Z.mod_pos_bound (Z.of_nat n * 50) 100).
    assert (Hm : ((Z.of_nat n * 50) mod 100 = 0
                  \/ (Z.of_nat n * 50) mod 100 = 50)%Z).
    { pose proof (Z.mod_pos_bound (Z.of_nat n) 2).
      pose proof (Z.div_mod (Z.of_nat n) 2).
      destruct (Z.eq_dec (Z.of_nat n mod 2) 0) as [E | E].
      - left. replace (Z.of_nat n * 50)%Z
          with (0 + (Z.of_nat n / 2) * 100)%Z by lia.
        now rewrite Z.mod_add by lia.
      - right. replace (Z.of_nat n * 50)%Z
          with (50 + (Z.of_nat n / 2) * 100)%Z by lia.
        now rewrite Z.mod_add by lia. }
    lia. }
  assert (H90 : (Z.of_nat n * 90 / 100 < Z.of_nat n)%Z).
  { apply Z.div_lt_upper_bound; lia. }
  assert (Hq : (1 <= q < Z.of_nat n)%Z) by lia.
  rewrite slice_bound_in_range by lia.
  lia.
Qed.

Lemma slider_cuts_in_range_1000 : slider_cuts_in_range 1000 = true.
Proof. vm_compute. reflexivity. Qed.

Lemma slider_cuts_in_range_sound (max_rows rows : nat) (percent : Z) :
  slider_cuts_in_range max_rows = true ->
  (10 <= percent <= 50)%Z -> 2 <= rows <= max_rows ->
  exists cut,
    train_size_of rows (slider_test_size percent : double) = Ok cut
    /\ 1 <= slice_bound rows cut < rows
    /\ rows <= 2 * slice_bound rows cut + 1.
Proof.
  intros Hall Hp Hrows.
  unfold slider_cuts_in_range in Hall.
  rewrite forallb_forall in Hall.
  assert (Hin : In rows (seq 2 (max_rows - 1))) by (apply in_seq; lia).
  specialize (Hall rows Hin). rewrite forallb_forall in Hall.
  assert (Hpos : In percent slider_positions).
  { unfold slider_positions. apply in_map_iff.
    exists (Z.to_nat percent). split; [lia|]. apply in_seq. lia. }
  specialize (Hall percent Hpos). unfold slider_cut_in_range in Hall.
  destruct (train_size_of rows (slider_test_size percent : double))
    as [cut|e]; [|discriminate].
  apply andb_prop in Hall. destruct Hall as [Hall H3].
  apply andb_prop in Hall. destruct Hall as [H1 H2].
  apply Z.leb_le in H1. apply Z.ltb_lt in H2. apply Z.leb_le in H3.
  exists cut. split; [reflexivity|].
  rewrite slice_bound_in_range by lia. lia.
Qed.

Lemma slider_cut_double (rows : nat) (percent : Z) :
  (10 <= percent <= 50)%Z -> 2 <= rows <= 1000 ->
  exists cut,
    train_size_of rows (slider_test_size percent : double) = Ok cut
    /\ 1 <= slice_bound rows cut < rows
    /\ rows <= 2 * slice_bound rows cut + 1.
Proof.
  exact (@slider_cuts_in_range_sound 1000 rows percent
           slider_cuts_in_range_1000).
Qed.

Section SliderFacts.

Variable T : Type.

(** X10. For every position of the test-size slider (10 to 50 percent)
    and every series with at least two more points than lags, both
    parts of the split are non-empty, and the training part holds at
    least half of the lag table's rows, rounded down. This holds for
    the split index without rounding, and for the index the program
    computes in doubles on lag tables of up to 1000 rows. *)
Theorem slider_split_nonempty (data : list (T * R)) (k : nat)
  (percent : Z) :
  (10 <= percent <= 50)%Z -> k + 2 <= length data ->
  (exists X_train y_train X_test y_test,
    XGBoost.prepare data k (slider_test_size percent : Q)
    = Ok (X_train, y_train, X_test, y_test)
    /\ 1 <= length (s_values y_train)
    /\ 1 <= length (s_values y_test)
    /\ length (s_values y_train) + length (s_values y_test)
       = length data - k
    /\ length data - k <= 2 * length (s_values y_train) + 1)
  /\ (length data - k <= 1000 ->
      exists X_train y_train X_test y_test,
        XGBoost.prepare data k (slider_test_size percent : double)
        = Ok (X_train, y_train, X_test, y_test)
        /\ 1 <= length (s_values y_train)
        /\ 1 <= length (s_values y_test)
        /\ length (s_values y_train) + length (s_values y_test)
           = length data - k
        /\ length data - k <= 2 * length (s_values y_train) + 1).
Proof.
  intros Hp Hn.
  assert (Hn' : 2 <= length data - k) by lia.
  split.
  - destruct (train_rows_slider Hp Hn') as [[H1 H2] H3].
    do 4 eexists. split; [apply xgb_prepare_closed|].
    cbn [s_values].
    rewrite length_firstn, !length_skipn, length_map.
    repeat split; lia.
  - intros Hmax.
    destruct (slider_cut_double Hp (conj Hn' Hmax))
      as [cut [Hcut [[H1 H2] H3]]].
    do 4 eexists.
    split; [apply (xgb_prepare_cut double_float data k _ Hcut)|].
    cbn [s_values].
    rewrite length_firstn, !length_skipn, length_map.
    repeat split; lia.
Qed.

End SliderFacts.

Lemma slider_split_nonempty_witness :
  (exists X_train y_train X_test y_test,
    XGBoost.prepare series5 2 (slider_test_size 20 : Q)
    = Ok (X_train, y_train, X_test, y_test)
    /\ 1 <= length (s_values y_train)
    /\ 1 <= length (s_values y_test))
  /\ (exists X_train y_train X_test y_test,
        XGBoost.prepare series5 2 (slider_test_size 20 : double)
        = Ok (X_train, y_train, X_test, y_test)
        /\ 1 <= length (s_values y_train)
        /\ 1 <= length (s_values y_test)).
Proof.
  destruct (@slider_split_nonempty Z series5 2 20) as [Hexact Hdouble].
  - lia.
  - simpl. lia.
  - split.
    + destruct Hexact as [Xtr [ytr [Xte [yte [Hrun [Htr [Hte _]]]]]]].
      exists Xtr, ytr, Xte, yte. repeat split; assumption.
    + destruct Hdouble as [Xtr [ytr [Xte [yte [Hrun [Htr [Hte _]]]]]]].
      * simpl. lia.
      * exists Xtr, ytr, Xte, yte. repeat split; assumption.
Defined.

(** ** The columns of the lag table *)

Lemma NoDup_map_inj (A B : Type) (f : A -> B) (l : list A) :
  (forall a b, f a = f b -> a = b) -> NoDup l -> NoDup (map f l).
Proof.
  intros Hinj Hnd. induction Hnd as [|a l Hnotin Hnd IH]; simpl.
  - constructor.
  - constructor; [|exact IH].
    intros Hin. apply in_map_iff in Hin. destruct Hin as [b [E Hb]].
    apply Hinj in E. subst b. contradiction.
Qed.

(** X11. The lag table of every series has exactly k + 1 columns, named
    "target", "target_lag1", ..., "target_lag<k>" in this order; the
    names are pairwise distinct, so no lag overwrites another column,
    and every column has one entry per row. *)
Theorem lag_table_columns (T V : Type) (data : list (T * V)) (k : nat) :
  exists fr,
    XGBoost.lag_table data k = Ok fr
    /\ map fst (columns fr)
       = "target"%string :: map (lag_name "target") (seq 1 k)
    /\ NoDup (map fst (columns fr))
    /\ length (columns fr) = k + 1
    /\ forall name c, In (name, c) (columns fr) -> length c = height fr.
Proof.
  exists (lag_frame data k).
  split; [apply xgb_lag_table_frame|].
  assert (Hnames : map fst (columns (lag_frame data k))
                   = "target"%string :: map (lag_name "target") (seq 1 k)).
  { unfold lag_frame, lag_columns. cbn [columns map fst].
    now rewrite map_map. }
  split; [exact Hnames|]. split; [|split].
  - rewrite Hnames. constructor.
    + intros Hin. apply in_map_iff in Hin. destruct Hin as [j [E _]].
      symmetry in E. revert E. apply lag_name_neq_col.
    + apply NoDup_map_inj; [apply lag_name_inj | apply seq_NoDup].
  - rewrite <- (length_map fst), Hnames. cbn [length].
    rewrite length_map, length_seq. lia.
  - intros name c Hin. rewrite height_lag_frame.
    unfold lag_frame in Hin. cbn [columns] in Hin.
    destruct Hin as [E | Hin].
    + injection E as _ <-. now rewrite length_skipn, length_map.
    + apply lag_columns_in in Hin. destruct Hin as [j [_ E]].
      injection E as _ ->. now rewrite length_lag_column, length_map.
Qed.

(** ** The SARIMA forecast *)

(** X12. Whatever the test size and the float arithmetic, when the
    SARIMA split returns, its two parts concatenate to the data in its
    order and their lengths add up to its length; a test size outside
    (0, 1) moves the cut (a negative cut counts from the end) but loses
    and repeats nothing. The split returns for every test size in exact
    arithmetic, and in doubles whenever the scaled length is finite. *)
Theorem sarima_split_partitions (A : Type) (data : list A) :
  (forall (F : Type) (PF : PyFloat F) (test_size : F) train test,
      sarima_split data test_size = Ok (train, test) ->
      train ++ test = data
      /\ length train + length test = length data)
  /\ (forall test_size : Q,
        exists train test,
          sarima_split data test_size = Ok (train, test)
          /\ train ++ test = data
          /\ length train + length test = length data)
  /\ (forall test_size : double,
        double_finite (scaled_length (length data) test_size) = true ->
        exists train test,
          sarima_split data test_size = Ok (train, test)
          /\ train ++ test = data
          /\ length train + length test = length data).
Proof.
  assert (Hgen : forall (F : Type) (PF : PyFloat F) (test_size : F)
                   train test,
             sarima_split data test_size = Ok (train, test) ->
             train ++ test = data
             /\ length train + length test = length data).
  { intros F PF test_size train test H. unfold sarima_split in H.
    destruct (train_size_of (length data) test_size) as [cut|e];
      [|discriminate].
    cbn [bind] in H. apply Ok_inj in H.
    pose proof (slice_to_from_app cut data) as Happ.
    injection H as <- <-. split; [exact Happ|].
    rewrite <- length_app. now rewrite Happ. }
  split; [exact Hgen|]. split.
  - intros test_size. do 2 eexists. split; [reflexivity|].
    apply (Hgen Q exact_float test_size). reflexivity.
  - intros test_size Hfin.
    destruct (int_of_double_finite _ Hfin) as [cut Hcut].
    assert (Hrun : sarima_split data test_size
                   = Ok (slice_to cut data, slice_from cut data)).
    { unfold sarima_split, train_size_of.
      cbn [int_of_float double_float]. now rewrite Hcut. }
    do 2 eexists. split; [exact Hrun|].
    now apply (Hgen double double_float test_size).
Qed.

Lemma sarima_split_partitions_witness :
  sarima_split [10; 20; 30; 40; 50] (slider_test_size 30 : double)
  = Ok ([10; 20; 30], [40; 50])
  /\ [10; 20; 30] ++ [40; 50] = [10; 20; 30; 40; 50].
Proof.
  assert (H : sarima_split [10; 20; 30; 40; 50]
                (slider_test_size 30 : double)
              = Ok ([10; 20; 30], [40; 50]))
    by (vm_compute; reflexivity).
  split; [exact H|].
  exact (proj1 (proj1 (sarima_split_partitions [10; 20; 30; 40; 50])
                  double double_float (slider_test_size 30)
                  [10; 20; 30] [40; 50] H)).
Defined.

Lemma index_last_nth_error (T V : Type) (data : list (T * V)) (p : T * V) :
  nth_error data (length data - 1) = Some p ->
  index_last data = Ok (fst p).
Proof.
  intros H. unfold index_last.
  destruct data as [|q data'] eqn:E; [discriminate|]. rewrite <- E in *.
  assert (Hne : data <> []) by (rewrite E; discriminate).
  destruct (exists_last Hne) as [l' [a Ha]].
  rewrite Ha in H |- *. rewrite rev_app_distr. cbn [rev app].
  rewrite length_app in H. cbn [length] in H.
  replace (length l' + 1 - 1) with (length l') in H by lia.
  rewrite nth_error_app2 in H by lia.
  rewrite Nat.sub_diag in H. cbn [nth_error] in H.
  now injection H as ->.
Qed.

Section SarimaFacts.

Variables T M : Type.
Variable arima_fit : list (T * R) -> nat -> py_result M.
Variable arima_predict : M -> T -> T -> py_result (list R).

Lemma sarima_split_closed (A : Type) (data : list A) (f : Q) :
  sarima_split data f
  = Ok (firstn (train_rows (length data) f) data,
        skipn (train_rows (length data) f) data).
Proof. reflexivity. Qed.

(** X13. On an empty series, or with a test size that is not positive,
    the test part is empty and [sarima_forecast] raises, whatever the
    model routines do. On an empty series it raises in every float
    arithmetic, the doubles of the program included. *)
Theorem sarima_forecast_raises_without_test_rows (data : list (T * R))
  (seasonal_period : nat) (test_size : Q) :
  (data = [] \/ (test_size <= 0)%Q ->
   raises (sarima_forecast arima_fit arima_predict data seasonal_period
             test_size))
  /\ (forall (F : Type) (PF : PyFloat F) (g : F),
        data = [] ->
        raises (sarima_forecast arima_fit arima_predict data
                  seasonal_period g)).
Proof.
  split.
  - intros H.
    assert (Hb : train_rows (length data) test_size = length data).
    { destruct H as [-> | H]; [|now apply train_rows_all].
      pose proof (train_rows_le 0 test_size). simpl. lia. }
    unfold sarima_forecast. rewrite sarima_split_closed, Hb.
    cbn [bind]. rewrite skipn_all.
    destruct (arima_fit _ _) as [m|e]; cbn [bind].
    + now exists IndexError.
    + now exists e.
  - intros F PF g ->.
    unfold sarima_forecast.
    destruct (train_size_of (length (@nil (T * R))) g) as [cut|e] eqn:Hcut.
    + rewrite (sarima_split_cut [] g Hcut). cbn [bind].
      rewrite skipn_nil.
      destruct (arima_fit _ _) as [m|e]; cbn [bind].
      * now exists IndexError.
      * now exists e.
    + unfold sarima_split. rewrite Hcut. cbn [bind]. now exists e.
Qed.

(** X14. In the float arithmetic of the program, or any other: when
    int() returns the split index, the split leaves a test part, the
    model fits the training prefix data[:b] (b the split index as a
    slice bound), and its prediction from the first held-out timestamp
    to the last timestamp of the series has one value per held-out
    point, [sarima_forecast] returns the metrics of the held-out suffix
    data[b:] against that prediction, the prediction and the suffix. *)
Theorem sarima_forecast_result (F : Type) (PF : PyFloat F)
  (data : list (T * R)) (seasonal_period : nat) (test_size : F)
  (cut : Z) (model : M) (predictions : list R) (first last : T * R) :
  train_size_of (length data) test_size = Ok cut ->
  let b := slice_bound (length data) cut in
  nth_error data b = Some first ->
  nth_error data (length data - 1) = Some last ->
  arima_fit (firstn b data) seasonal_period = Ok model ->
  arima_predict model (fst first) (fst last) = Ok predictions ->
  length predictions = length data - b ->
  sarima_forecast arima_fit arima_predict data seasonal_period test_size
  = Ok (metrics_of (map snd (skipn b data)) predictions, predictions,
        mkSeries (map fst (skipn b data)) (map snd (skipn b data))).
Proof.
  intros Hcut b Hfirst Hlast Hfit Hpred Hlen.
  assert (Hb : b < length data) by (apply nth_error_Some; congruence).
  unfold sarima_forecast. rewrite (sarima_split_cut data test_size Hcut).
  fold b. cbn [bind]. rewrite Hfit. cbn [bind].
  assert (Hf : index_first (skipn b data) = Ok (fst first)).
  { rewrite (skipn_nth_error _ _ Hfirst). reflexivity. }
  assert (Hl : index_last (skipn b data) = Ok (fst last)).
  { apply index_last_nth_error.
    rewrite length_skipn, nth_error_skipn, <- Hlast. f_equal. lia. }
  rewrite Hf, Hl. cbn [bind]. rewrite Hpred. cbn [bind].
  rewrite calculate_metrics_ok.
  - reflexivity.
  - rewrite length_map, length_skipn. lia.
  - rewrite length_map, length_skipn. lia.
Qed.

End SarimaFacts.

Lemma sarima_forecast_raises_witness :
  raises (sarima_forecast (T := Z) (fun _ _ => Ok tt)
            (fun _ _ _ => Ok [1%R]) [] 12 (2 # 10)%Q)
  /\ raises (sarima_forecast (T := Z) (fun _ _ => Ok tt)
               (fun _ _ _ => Ok [1%R]) [] 12 (slider_test_size 20 : double)).
Proof.
  destruct (@sarima_forecast_raises_without_test_rows Z unit
              (fun _ _ => Ok tt) (fun _ _ _ => Ok [1%R]) [] 12 (2 # 10)%Q)
    as [Hexact Hany].
  split.
  - apply Hexact. left. reflexivity.
  - apply (Hany double double_float (slider_test_size 20)). reflexivity.
Defined.

Lemma sarima_forecast_result_witness :
  sarima_forecast (fun _ _ => Ok tt) (fun _ _ _ => Ok (repeat 0%R 28))
    (ramp 90) 12 thirty_percent
  = Ok (metrics_of (map snd (skipn 62 (ramp 90))) (repeat 0%R 28),
        repeat 0%R 28,
        mkSeries (map fst (skipn 62 (ramp 90)))
                 (map snd (skipn 62 (ramp 90)))).
Proof.
  apply (@sarima_forecast_result Z unit (fun _ _ => Ok tt)
           (fun _ _ _ => Ok (repeat 0%R 28)) double double_float
           (ramp 90) 12 thirty_percent 62%Z tt (repeat 0%R 28)
           (62%Z, INR 62) (89%Z, INR 89)).
  - vm_compute. reflexivity.
  - reflexivity.
  - reflexivity.
  - reflexivity.
  - reflexivity.
  - reflexivity.
Defined.

(** ** The rollout of the future extrapolator *)

Section RolloutExtras.

Variable V : Type.
Implicit Types (model : list V -> V) (w acc : list V).

Lemma rollout_predictions_from model steps : forall w acc,
  rollout model steps w acc = acc ++ predictions_from model steps w.
Proof.
  induction steps as [|steps IH]; intros w acc.
  - simpl. now rewrite app_nil_r.
  - cbn [rollout predictions_from]. rewrite slice_from_1, IH.
    rewrite <- app_assoc. reflexivity.
Qed.

Lemma predictions_from_length model steps : forall w,
  length (predictions_from model steps w) = steps.
Proof.
  induction steps as [|steps IH]; intros w; simpl; [reflexivity|].
  now rewrite IH.
Qed.

Lemma predictions_from_prefix model h h' : forall w,
  firstn h (predictions_from model (h + h') w) = predictions_from model h w.
Proof.
  induction h as [|h IH]; intros w; [reflexivity|].
  cbn [Nat.add predictions_from firstn]. now rewrite IH.
Qed.

Lemma predictions_from_ext model model' k steps : forall w,
  1 <= k -> length w = k ->
  (forall w', length w' = k -> model w' = model' w') ->
  predictions_from model steps w = predictions_from model' steps w.
Proof.
  induction steps as [|steps IH]; intros w Hk Hw Hext; [reflexivity|].
  cbn [predictions_from]. rewrite (Hext w Hw). f_equal.
  apply IH; [exact Hk | | exact Hext].
  rewrite length_app. cbn [length].
  destruct w; simpl in *; lia.
Qed.

Lemma window_at_length (vals : list V) k i :
  k <= i < length vals -> length (window_at vals k i) = k.
Proof.
  intros Hi. unfold window_at.
  rewrite <- (length_seq k 1) at 2.
  assert (H : forall j, In j (seq 1 k) -> i - j < length vals).
  { intros j Hj. apply in_seq in Hj. lia. }
  revert H. generalize (seq 1 k). intros l H.
  induction l as [|j l IH]; [reflexivity|].
  cbn [flat_map length].
  destruct (nth_error vals (i - j)) as [v|] eqn:E.
  - cbn [app length]. f_equal. apply IH. intros j' Hj'. apply H. now right.
  - apply nth_error_None in E. specialize (H j (or_introl eq_refl)). lia.
Qed.

Lemma future_index_closed (data : list (timestamp * V)) (h : nat)
  (last : timestamp * V) :
  nth_error data (length data - 1) = Some last ->
  future_index data h
  = Ok (map (fun i => (fst last + Z.of_nat i)%Z) (seq 1 h)).
Proof.
  intros Hlast. unfold future_index.
  rewrite (index_last_nth_error data Hlast). cbn [bind].
  rewrite slice_from_1. unfold date_range.
  rewrite Nat.add_1_r. reflexivity.
Qed.

Lemma matrix_future_X (data : list (timestamp * V)) :
  matrix (future_X data) = windows (map snd data) 8 8 (length data - 8).
Proof.
  unfold future_X.
  assert (Hl : length (skipn 8 (map fst data)) = length data - 8).
  { now rewrite length_skipn, length_map. }
  rewrite <- Hl.
  apply (@matrix_lag_columns timestamp V _ (map snd data) 8 (fun c => c) 8).
  intros j r Hj Hr. rewrite Hl in Hr.
  replace r with ((8 + r) - 8) at 1 by lia.
  apply nth_error_lag_column; rewrite ?length_map; lia.
Qed.

End RolloutExtras.

Section FutureExtras.

Variable V : Type.
Variable sarima_future :
  list (timestamp * V) -> option nat -> nat ->
  py_result (series timestamp V).

(** The forecast of the tabular branch in closed form. *)
Lemma forecast_tabular_closed
  (xgb_fit gbr_fit : list (list V) -> list V -> py_result (list V -> V))
  (data : list (timestamp * V)) (model_choice : string)
  (future_steps : nat) (seasonal_period : option nat)
  (model : list V -> V) (last : timestamp * V) :
  tabular model_choice -> 8 < length data ->
  nth_error data (length data - 1) = Some last ->
  chosen_fit xgb_fit gbr_fit model_choice
    (windows (map snd data) 8 8 (length data - 8))
    (skipn 8 (map snd data)) = Ok model ->
  forecast_future sarima_future xgb_fit gbr_fit data model_choice
    future_steps seasonal_period
  = Ok (Some (mkSeries
               (map (fun i => (fst last + Z.of_nat i)%Z)
                    (seq 1 future_steps))
               (predictions_from model future_steps
                  (window_at (map snd data) 8 (length data - 1))))).
Proof.
  intros Htab Hlen Hlast Hfit.
  rewrite <- matrix_future_X in Hfit. fold (future_y data) in Hfit.
  destruct (forecast_tabular_ok sarima_future xgb_fit gbr_fit data
              future_steps seasonal_period Htab Hlen Hfit)
    as [idx [Hidx [_ Hrun]]].
  rewrite Hrun. rewrite (future_index_closed data future_steps Hlast) in Hidx.
  apply Ok_inj in Hidx. subst idx.
  rewrite rollout_predictions_from. cbn [app].
  unfold last_row_window, window_at. now rewrite length_map.
Qed.

End FutureExtras.

Section WindowEntries.

Variable V : Type.

Lemma nth_error_flat_window (vals : list V) (i m : nat) : forall a j,
  j < m -> i < length vals ->
  nth_error
    (flat_map (fun j' => match nth_error vals (i - j') with
                         | Some v => [v]
                         | None => []
                         end) (seq a m)) j
  = nth_error vals (i - (a + j)).
Proof.
  induction m as [|m IH]; intros a j Hj Hi; [lia|].
  cbn [seq flat_map].
  destruct (nth_error vals (i - a)) as [v|] eqn:E.
  - destruct j as [|j].
    + cbn [app nth_error]. now rewrite Nat.add_0_r, E.
    + cbn [app nth_error]. rewrite IH by lia. f_equal. lia.
  - apply nth_error_None in E. lia.
Qed.

Lemma nth_error_window_at (vals : list V) (k i j : nat) :
  j < k -> i < length vals ->
  nth_error (window_at vals k i) j = nth_error vals (i - 1 - j).
Proof.
  intros Hj Hi. unfold window_at.
  rewrite nth_error_flat_window by assumption. f_equal. lia.
Qed.

End WindowEntries.

Section FutureTheorems.

Variable V : Type.
Variable sarima_future :
  list (timestamp * V) -> option nat -> nat ->
  py_result (series timestamp V).
Variables xgb_fit gbr_fit :
  list (list V) -> list V -> py_result (list V -> V).

(** X15. On a series of n > 8 points a tabular strategy fits its
    regressor on the windows and targets of all positions 8 to n - 1
    and, when the fit returns a model, forecasts the [future_steps]
    months after the last timestamp by rolling the model out from the
    feature row of the last position. That row has 8 entries, the
    values at the positions n - 2 down to n - 9: the last value of the
    series is not in it. *)
Theorem forecast_future_tabular_result (data : list (timestamp * V))
  (model_choice : string) (future_steps : nat)
  (seasonal_period : option nat) (model : list V -> V)
  (last : timestamp * V) :
  tabular model_choice -> 8 < length data ->
  nth_error data (length data - 1) = Some last ->
  chosen_fit xgb_fit gbr_fit model_choice
    (windows (map snd data) 8 8 (length data - 8))
    (skipn 8 (map snd data)) = Ok model ->
  let window := window_at (map snd data) 8 (length data - 1) in
  forecast_future sarima_future xgb_fit gbr_fit data model_choice
    future_steps seasonal_period
  = Ok (Some (mkSeries
               (map (fun i => (fst last + Z.of_nat i)%Z)
                    (seq 1 future_steps))
               (predictions_from model future_steps window)))
  /\ length window = 8
  /\ forall j, j < 8 ->
       nth_error window j = nth_error (map snd data) (length data - 2 - j).
Proof.
  intros Htab Hlen Hlast Hfit window.
  split; [now apply forecast_tabular_closed|]. split.
  - apply window_at_length. rewrite length_map. lia.
  - intros j Hj. unfold window.
    rewrite nth_error_window_at by (rewrite ?length_map; lia).
    f_equal. lia.
Qed.

(** X16. Asking a tabular strategy for a longer horizon leaves the
    earlier forecasts as they were: the forecast for [h] steps is the
    first [h] points, timestamps and values, of the forecast for
    [h + more] steps. *)
Theorem forecast_future_horizon_prefix (data : list (timestamp * V))
  (model_choice : string) (h more : nat) (seasonal_period : option nat)
  (model : list V -> V) :
  tabular model_choice -> 8 < length data ->
  chosen_fit xgb_fit gbr_fit model_choice
    (windows (map snd data) 8 8 (length data - 8))
    (skipn 8 (map snd data)) = Ok model ->
  exists s s',
    forecast_future sarima_future xgb_fit gbr_fit data model_choice h
      seasonal_period = Ok (Some s)
    /\ forecast_future sarima_future xgb_fit gbr_fit data model_choice
         (h + more) seasonal_period = Ok (Some s')
    /\ s_values s = firstn h (s_values s')
    /\ s_index s = firstn h (s_index s').
Proof.
  intros Htab Hlen Hfit.
  destruct (nth_error data (length data - 1)) as [last|] eqn:Hlast.
  2:{ apply nth_error_None in Hlast. lia. }
  do 2 eexists.
  split; [exact (forecast_tabular_closed sarima_future xgb_fit gbr_fit
                   data h seasonal_period Htab Hlen Hlast Hfit)|].
  split; [exact (forecast_tabular_closed sarima_future xgb_fit gbr_fit
                   data (h + more) seasonal_period Htab Hlen Hlast Hfit)|].
  cbn [s_values s_index]. split.
  - now rewrite predictions_from_prefix.
  - rewrite firstn_map, firstn_seq_le by lia. reflexivity.
Qed.

(** X17. The window of the rollout keeps its 8 entries at every step:
    two fitting routines whose models agree on every window of 8
    features give the same forecast, whatever the models do on windows
    of another size. *)
Theorem forecast_future_window_size
  (xgb_fit' gbr_fit' : list (list V) -> list V -> py_result (list V -> V))
  (data : list (timestamp * V)) (model_choice : string)
  (future_steps : nat) (seasonal_period : option nat)
  (model model' : list V -> V) :
  tabular model_choice -> 8 < length data ->
  chosen_fit xgb_fit gbr_fit model_choice
    (windows (map snd data) 8 8 (length data - 8))
    (skipn 8 (map snd data)) = Ok model ->
  chosen_fit xgb_fit' gbr_fit' model_choice
    (windows (map snd data) 8 8 (length data - 8))
    (skipn 8 (map snd data)) = Ok model' ->
  (forall w, length w = 8 -> model w = model' w) ->
  forecast_future sarima_future xgb_fit gbr_fit data model_choice
    future_steps seasonal_period
  = forecast_future sarima_future xgb_fit' gbr_fit' data model_choice
      future_steps seasonal_period.
Proof.
  intros Htab Hlen Hfit Hfit' Hext.
  destruct (nth_error data (length data - 1)) as [last|] eqn:Hlast.
  2:{ apply nth_error_None in Hlast. lia. }
  rewrite (forecast_tabular_closed sarima_future xgb_fit gbr_fit
             data future_steps seasonal_period Htab Hlen Hlast Hfit).
  rewrite (forecast_tabular_closed sarima_future xgb_fit' gbr_fit'
             data future_steps seasonal_period Htab Hlen Hlast Hfit').
  do 3 f_equal.
  apply predictions_from_ext with (k := 8); [lia | | exact Hext].
  apply window_at_length. rewrite length_map. lia.
Qed.

Lemma caller_horizon_fifth (n : nat) :
  Z.to_nat (py_int (inject_Z (Z.of_nat n) * (2 # 10))%Q) = n / 5.
Proof.
  unfold py_int. cbn [Qmult Qnum Qden inject_Z].
  rewrite Z.quot_div_nonneg by lia.
  replace (Z.pos (1 * 10)) with 10%Z by reflexivity.
  assert (E : (Z.of_nat n * 2 / 10 = Z.of_nat n / 5)%Z).
  { replace 10%Z with (2 * 5)%Z by reflexivity.
    rewrite Z.mul_comm. apply Z.div_mul_cancel_l; lia. }
  rewrite E. change 5%Z with (Z.of_nat 5).
  now rewrite <- Nat2Z.inj_div, Nat2Z.id.
Qed.

(** X18. The caller asks for a fifth of the series' length, rounded
    down: on a series of n > 8 points a tabular strategy whose
    regressor fits returns n / 5 forecast points, at least one. *)
Theorem forecast_future_button_horizon (data : list (timestamp * V))
  (model_choice : string) (seasonal_period : option nat)
  (model : list V -> V) :
  tabular model_choice -> 8 < length data ->
  chosen_fit xgb_fit gbr_fit model_choice
    (windows (map snd data) 8 8 (length data - 8))
    (skipn 8 (map snd data)) = Ok model ->
  exists s,
    forecast_future_button sarima_future xgb_fit gbr_fit data model_choice
      seasonal_period = Ok (Some s)
    /\ length (s_values s) = length data / 5
    /\ length (s_index s) = length data / 5
    /\ 1 <= length (s_values s).
Proof.
  intros Htab Hlen Hfit.
  destruct (nth_error data (length data - 1)) as [last|] eqn:Hlast.
  2:{ apply nth_error_None in Hlast. lia. }
  unfold forecast_future_button. rewrite caller_horizon_fifth.
  eexists.
  split; [exact (forecast_tabular_closed sarima_future xgb_fit gbr_fit
                   data (length data / 5) seasonal_period Htab Hlen
                   Hlast Hfit)|].
  cbn [s_values s_index].
  rewrite predictions_from_length, length_map, length_seq.
  repeat split.
  apply Nat.div_le_lower_bound; lia.
Qed.

End FutureTheorems.

(** ** Concrete runs of the further properties *)

Lemma lag_table_columns_witness :
  exists fr,
    XGBoost.lag_table series10 2 = Ok fr
    /\ map fst (columns fr) = ["target"; "target_lag1"; "target_lag2"]%string
    /\ forall name c, In (name, c) (columns fr) -> length c = height fr.
Proof.
  destruct (lag_table_columns series10 2) as [fr [Hfr [Hn [_ [_ Hc]]]]].
  exists fr. split; [exact Hfr|]. split; [exact Hn | exact Hc].
Defined.

Lemma forecast_future_tabular_result_witness :
  forecast_future sample_sarima sample_fit sample_fit series10 "XGBoost" 3
    None
  = Ok (Some (mkSeries [10; 11; 12]%Z [9; 8; 7]%Z)).
Proof.
  destruct (@forecast_future_tabular_result Z sample_sarima sample_fit
              sample_fit series10 "XGBoost" 3 None persistence (9, 10)%Z)
    as [Hrun _].
  - left. reflexivity.
  - simpl. lia.
  - reflexivity.
  - reflexivity.
  - exact Hrun.
Defined.

Lemma forecast_future_horizon_prefix_witness :
  exists s s',
    forecast_future sample_sarima sample_fit sample_fit series10
      "Gradient Boosting" 1 None = Ok (Some s)
    /\ forecast_future sample_sarima sample_fit sample_fit series10
         "Gradient Boosting" 3 None = Ok (Some s')
    /\ s_values s = firstn 1 (s_values s').
Proof.
  destruct (@forecast_future_horizon_prefix Z sample_sarima sample_fit
              sample_fit series10 "Gradient Boosting" 1 2 None persistence)
    as [s [s' [Hs [Hs' [Hv _]]]]].
  - right. reflexivity.
  - simpl. lia.
  - reflexivity.
  - exists s, s'. split; [exact Hs|]. split; [exact Hs' | exact Hv].
Defined.

Lemma forecast_future_window_size_witness :
  forecast_future sample_sarima sample_fit sample_fit series10 "XGBoost" 4
    None
  = forecast_future sample_sarima (fun _ _ => Ok persistence8)
      (fun _ _ => Ok persistence8) series10 "XGBoost" 4 None.
Proof.
  apply (@forecast_future_window_size Z sample_sarima sample_fit sample_fit
           (fun _ _ => Ok persistence8) (fun _ _ => Ok persistence8)
           series10 "XGBoost" 4 None persistence persistence8).
  - left. reflexivity.
  - simpl. lia.
  - reflexivity.
  - reflexivity.
  - intros w Hw. unfold persistence8. now rewrite Hw.
Defined.

Lemma forecast_future_button_horizon_witness :
  exists s,
    forecast_future_button sample_sarima sample_fit sample_fit series10
      "XGBoost" None = Ok (Some s)
    /\ length (s_values s) = 2.
Proof.
  destruct (@forecast_future_button_horizon Z sample_sarima sample_fit
              sample_fit series10 "XGBoost" None persistence)
    as [s [Hs [Hl _]]].
  - left. reflexivity.
  - simpl. lia.
  - reflexivity.
  - exists s. split; [exact Hs | exact Hl].
Defined.
